(** * check-folders: a shallow embedding of the folder comparison scripts

    The development follows two versions of the script kept under
    [old_versions]: [gama_3.py] (hashing that survives read failures,
    comparison of the common files, detection of changed file names) and
    [beta_version_3.py] (files and folders enumerated together).

    What the scripts take from Python's libraries is kept abstract or
    modelled from the library documentation:
    - [hashlib.sha256] objects are an interface ([HashLib]) with the law that
      the documentation gives for [update];
    - the order in which a [set] of paths is iterated is an interface
      ([PySet]): any enumeration of the elements;
    - the file system is a read-only record: the directory tree that
      [os.walk] finds at a top folder and the outcome of [open] on a path. *)

From Stdlib Require Import Ascii.
From Equations Require Import Equations.
From stdpp Require Import gmap strings list sorting.

(** ** Python values *)

Abbreviation bytes := (list Byte.byte).
Abbreviation path := string.

(** *** Strings

    A [str] that comes from the operating system (a file name, a folder given
    on the command line) is held as the bytes it came from.  Python reads
    them as UTF-8 with the error handler [surrogateescape]: a well-formed
    sequence of bytes (table 3-7 of the Unicode standard) is one character,
    and a byte that is in no well-formed sequence is a character of its own,
    one of U+DC80 to U+DCFF. *)

Definition byte_in (lo hi : N) (c : Ascii.ascii) : bool :=
  (lo <=? Ascii.N_of_ascii c)%N && (Ascii.N_of_ascii c <=? hi)%N.

(** The length of the sequence that a first byte announces. *)
Definition lead (b0 : Ascii.ascii) : nat :=
  if byte_in 0xC2 0xDF b0 then 2
  else if byte_in 0xE0 0xEF b0 then 3
  else if byte_in 0xF0 0xF4 b0 then 4
  else 1.

(** The second byte that a first byte admits. *)
Definition second_ok (b0 b1 : Ascii.ascii) : bool :=
  let n := Ascii.N_of_ascii b0 in
  if (n =? 0xE0)%N then byte_in 0xA0 0xBF b1
  else if (n =? 0xED)%N then byte_in 0x80 0x9F b1
  else if (n =? 0xF0)%N then byte_in 0x90 0xBF b1
  else if (n =? 0xF4)%N then byte_in 0x80 0x8F b1
  else byte_in 0x80 0xBF b1.

(** A byte that continues a sequence. *)
Definition continues (b : Ascii.ascii) : bool := byte_in 0x80 0xBF b.

(** The number of bytes of the character that starts with [b0], followed by
    [rest]: the length of the well-formed sequence there, or 1. *)
Definition seq_len (b0 : Ascii.ascii) (rest : string) : nat :=
  match lead b0, rest with
  | 2, String b1 _ => if second_ok b0 b1 then 2 else 1
  | 3, String b1 (String b2 _) =>
      if second_ok b0 b1 && continues b2 then 3 else 1
  | 4, String b1 (String b2 (String b3 _)) =>
      if second_ok b0 b1 && continues b2 && continues b3 then 4 else 1
  | _, _ => 1
  end.

(** The code point of that character. *)
Definition char_code (b0 : Ascii.ascii) (rest : string) : N :=
  let n0 := Ascii.N_of_ascii b0 in
  match seq_len b0 rest, rest with
  | 2, String b1 _ =>
      ((n0 mod 32) * 64 + Ascii.N_of_ascii b1 mod 64)%N
  | 3, String b1 (String b2 _) =>
      ((n0 mod 16) * 4096 + (Ascii.N_of_ascii b1 mod 64) * 64 +
       Ascii.N_of_ascii b2 mod 64)%N
  | 4, String b1 (String b2 (String b3 _)) =>
      ((n0 mod 8) * 262144 + (Ascii.N_of_ascii b1 mod 64) * 4096 +
       (Ascii.N_of_ascii b2 mod 64) * 64 + Ascii.N_of_ascii b3 mod 64)%N
  | _, _ => if (n0 <? 128)%N then n0 else (0xDC00 + n0)%N
  end.

(** The characters of a string, as code points.  [skip] counts the bytes
    that still belong to the character before. *)
Fixpoint code_points_go (skip : nat) (s : string) : list N :=
  match s with
  | EmptyString => []
  | String c s' =>
      match skip with
      | S k => code_points_go k s'
      | O => char_code c s' :: code_points_go (seq_len c s' - 1) s'
      end
  end.

Definition code_points (s : string) : list N := code_points_go 0 s.

(** [len(s)]: the number of characters. *)
Fixpoint py_len_go (skip : nat) (s : string) : nat :=
  match s with
  | EmptyString => 0
  | String c s' =>
      match skip with
      | S k => py_len_go k s'
      | O => S (py_len_go (seq_len c s' - 1) s')
      end
  end.

Definition py_len (s : string) : nat := py_len_go 0 s.

(** [s[:n]]: the first [n] characters. *)
Fixpoint py_take_go (skip n : nat) (s : string) : string :=
  match s with
  | EmptyString => EmptyString
  | String c s' =>
      match skip with
      | S k => String c (py_take_go k n s')
      | O =>
          match n with
          | O => EmptyString
          | S n' => String c (py_take_go (seq_len c s' - 1) n' s')
          end
      end
  end.

Definition py_take (n : nat) (s : string) : string := py_take_go 0 n s.

(** [a <= b] on [str]: the first character that differs decides, by its
    code point; a string is below what it is a prefix of. *)
Fixpoint lex_le (l1 l2 : list N) : bool :=
  match l1, l2 with
  | [], _ => true
  | _ :: _, [] => false
  | x :: l1, y :: l2 =>
      if (x <? y)%N then true
      else if (x =? y)%N then lex_le l1 l2
      else false
  end.

Definition str_le (a b : string) : Prop :=
  lex_le (code_points a) (code_points b) = true.

#[global] Instance str_le_dec : RelDecision str_le.
Proof. intros a b. unfold str_le. apply _. Defined.

(** [sorted] on a collection of [str]: ascending. *)
Definition sorted (l : list string) : list string := merge_sort str_le l.

(** ** hashlib *)

(** A [hashlib.sha256()] object.  The documentation of [update] says that
    repeated calls are equivalent to a single call with the concatenation of
    all the arguments, and that of [hexdigest] that the string is twice the
    digest size (32 bytes for SHA-256). *)
Class HashLib := {
  hash_state : Type;
  sha256 : hash_state;
  update : hash_state → bytes → hash_state;
  hexdigest : hash_state → string;
  update_nil : ∀ s, update s [] = s;
  update_update : ∀ s a b, update (update s a) b = update s (a ++ b);
  hexdigest_length : ∀ s, String.length (hexdigest s) = 64
}.

(** The digest of a whole byte string in one pass:
    [hashlib.sha256(data).hexdigest()]. *)
Definition sha256_hex `{HashLib} (data : bytes) : string :=
  hexdigest (update sha256 data).

(** *** SHA-256

    The function of FIPS 180-4 on 32-bit words held in [Z], to have a hash
    object that computes. *)
Module SHA256.

Local Open Scope Z_scope.

Definition w32 (x : Z) : Z := Z.land x 0xffffffff.
Definition add32 (x y : Z) : Z := w32 (x + y).
Definition rotr (n x : Z) : Z := w32 (Z.lor (Z.shiftr x n) (Z.shiftl x (32 - n))).
Definition shr (n x : Z) : Z := Z.shiftr x n.
Definition not32 (x : Z) : Z := Z.lxor x 0xffffffff.

Definition Ch (x y z : Z) : Z := Z.lxor (Z.land x y) (Z.land (not32 x) z).
Definition Maj (x y z : Z) : Z :=
  Z.lxor (Z.lxor (Z.land x y) (Z.land x z)) (Z.land y z).
Definition Sigma0 (x : Z) : Z := Z.lxor (Z.lxor (rotr 2 x) (rotr 13 x)) (rotr 22 x).
Definition Sigma1 (x : Z) : Z := Z.lxor (Z.lxor (rotr 6 x) (rotr 11 x)) (rotr 25 x).
Definition sigma0 (x : Z) : Z := Z.lxor (Z.lxor (rotr 7 x) (rotr 18 x)) (shr 3 x).
Definition sigma1 (x : Z) : Z := Z.lxor (Z.lxor (rotr 17 x) (rotr 19 x)) (shr 10 x).

(** The first 64 primes. *)
Definition primes : list Z :=
  [2; 3; 5; 7; 11; 13; 17; 19; 23; 29; 31; 37; 41; 43; 47; 53; 59; 61; 67; 71;
   73; 79; 83; 89; 97; 101; 103; 107; 109; 113; 127; 131; 137; 139; 149; 151;
   157; 163; 167; 173; 179; 181; 191; 193; 197; 199; 211; 223; 227; 229; 233;
   239; 241; 251; 257; 263; 269; 271; 277; 281; 283; 293; 307; 311].

(** The largest [r] below [2 ^ bits] with [r ^ 3 <= n], a bit at a time. *)
Fixpoint cube_root (bits : nat) (n r : Z) : Z :=
  match bits with
  | O => r
  | S bits =>
      let r' := r + 2 ^ Z.of_nat bits in
      cube_root bits n (if r' * r' * r' <=? n then r' else r)
  end.

(** The first 32 bits of the fractional part of a cube root and of a square
    root. *)
Definition frac_cbrt (p : Z) : Z := w32 (cube_root 36 (p * 2 ^ 96) 0).
Definition frac_sqrt (p : Z) : Z := w32 (Z.sqrt (p * 2 ^ 64)).

(** The round constants, from the cube roots of the primes. *)
Definition K : list Z := Eval vm_compute in frac_cbrt <$> primes.

(** The eight working registers. *)
Definition regs : Type := Z * Z * Z * Z * Z * Z * Z * Z.

(** The initial hash value, from the square roots of the first eight
    primes. *)
Definition H0 : regs :=
  Eval vm_compute in
    (frac_sqrt 2, frac_sqrt 3, frac_sqrt 5, frac_sqrt 7,
     frac_sqrt 11, frac_sqrt 13, frac_sqrt 17, frac_sqrt 19).

Definition byteZ (b : Byte.byte) : Z := Z.of_N (Byte.to_N b).

(** Big-endian words of a byte string (a trailing group of fewer than four
    bytes is dropped; blocks have 64 bytes). *)
Fixpoint words (bs : bytes) : list Z :=
  match bs with
  | b0 :: b1 :: b2 :: b3 :: rest =>
      (byteZ b0 * 0x1000000 + byteZ b1 * 0x10000 + byteZ b2 * 0x100 + byteZ b3)
      :: words rest
  | _ => []
  end.

(** Message schedule: [n] more words after the reversed prefix [rev_w]. *)
Fixpoint schedule (n : nat) (rev_w : list Z) : list Z :=
  match n with
  | O => rev rev_w
  | S n =>
      match rev_w with
      | w1 :: w2 :: _ =>
          let w7 := default 0 (rev_w !! 6%nat) in
          let w15 := default 0 (rev_w !! 14%nat) in
          let w16 := default 0 (rev_w !! 15%nat) in
          schedule n (add32 (add32 (sigma1 w2) w7) (add32 (sigma0 w15) w16) :: rev_w)
      | _ => rev rev_w
      end
  end.

Definition round (r : regs) (kw : Z * Z) : regs :=
  let '(a, b, c, d, e, f, g, h) := r in
  let t1 := add32 (add32 (add32 h (Sigma1 e)) (add32 (Ch e f g) kw.1)) kw.2 in
  let t2 := add32 (Sigma0 a) (Maj a b c) in
  (add32 t1 t2, a, b, c, add32 d t1, e, f, g).

Definition compress (r : regs) (block : bytes) : regs :=
  let w := schedule 48 (rev (words block)) in
  let '(a, b, c, d, e, f, g, h) := foldl round r (zip K w) in
  let '(a0, b0, c0, d0, e0, f0, g0, h0) := r in
  (add32 a0 a, add32 b0 b, add32 c0 c, add32 d0 d,
   add32 e0 e, add32 f0 f, add32 g0 g, add32 h0 h).

Definition byte_of_Z (z : Z) : Byte.byte :=
  default Byte.x00 (Byte.of_N (Z.to_N (z mod 256))).

(** The 64-bit big-endian bit length. *)
Definition length_bytes (n : Z) : bytes :=
  (λ i : nat, byte_of_Z (Z.shiftr n (8 * (7 - Z.of_nat i)))) <$> seq 0 8.

Definition pad (msg : bytes) : bytes :=
  let n := length msg in
  let zeros := ((64 - (n + 9) mod 64) mod 64)%nat in
  msg ++ [Byte.x80] ++ replicate zeros Byte.x00 ++ length_bytes (8 * Z.of_nat n).

(** The blocks of a padded message; [n] counts them. *)
Fixpoint blocks (n : nat) (r : regs) (bs : bytes) : regs :=
  match n with
  | O => r
  | S n => blocks n (compress r (take 64 bs)) (drop 64 bs)
  end.

Definition digest (msg : bytes) : regs :=
  let p := pad msg in blocks (length p / 64) H0 p.

(** Lower-case hexadecimal digits. *)
Definition hex_char (n : Z) : Ascii.ascii :=
  Ascii.ascii_of_nat (Z.to_nat (if n <? 10 then 48 + n else 87 + n)).

Definition hex8 (w : Z) : list Ascii.ascii :=
  (λ i : nat, hex_char (Z.land (Z.shiftr w (4 * (7 - Z.of_nat i))) 15)) <$> seq 0 8.

Definition hexdigest (msg : bytes) : string :=
  let '(a, b, c, d, e, f, g, h) := digest msg in
  String.string_of_list_ascii (mjoin (hex8 <$> [a; b; c; d; e; f; g; h])).

Lemma length_string_of_list_ascii l :
  String.length (String.string_of_list_ascii l) = length l.
Proof. induction l as [|c l IH]; simpl; [done|by rewrite IH]. Qed.

Lemma hexdigest_length msg : String.length (hexdigest msg) = 64%nat.
Proof.
  unfold hexdigest. destruct (digest msg) as [[[[[[[a b] c] d] e] f] g] h].
  rewrite length_string_of_list_ascii. reflexivity.
Qed.

End SHA256.

(** A hash object that keeps what it was fed and hashes it when asked. *)
#[global, refine] Instance sha256_lib : HashLib := {
  hash_state := bytes;
  sha256 := [];
  update s data := s ++ data;
  hexdigest := SHA256.hexdigest
}.
Proof.
  - intros s. apply app_nil_r.
  - intros s a b. symmetry. apply app_assoc.
  - apply SHA256.hexdigest_length.
Defined.

Definition str_bytes (s : string) : bytes := String.list_byte_of_string s.

Example sha256_abc :
  sha256_hex (str_bytes "abc") =
  "ba7816bf8f01cfea414140de5dae2223b00361a396177a9cb410ff61f20015ad".
Proof. vm_compute. reflexivity. Qed.

Example sha256_empty :
  sha256_hex [] =
  "e3b0c44298fc1c149afbf4c8996fb92427ae41e4649b934ca495991b7852b855".
Proof. vm_compute. reflexivity. Qed.

Example sha256_two_blocks :
  sha256_hex (str_bytes "abcdbcdecdefdefgefghfghighijhijkijkljklmklmnlmnomnopnopq") =
  "248d6a61d20638b8e5c026930c3e6039a33ce45964ff2167f6ecedd419db06c1".
Proof. vm_compute. reflexivity. Qed.

(** ** Files *)

(** An open binary file: the bytes not read yet and, when the device is going
    to fail, the number of [read] calls that still succeed. *)
Record handle := Handle {
  h_data : bytes;
  h_reads : option nat
}.

(** [f.read(n)]: at most [n] bytes, fewer only at the end of the file;
    [None] when the call raises. *)
Definition f_read (h : handle) (n : nat) : option (bytes * handle) :=
  match h_reads h with
  | Some 0 => None
  | r => Some (take n (h_data h), Handle (drop n (h_data h)) (pred <$> r))
  end.

Lemma f_read_shrinks h n chunk h' :
  f_read h n = Some (chunk, h') → chunk ≠ [] → length (h_data h') < length (h_data h).
Proof.
  unfold f_read. intros Hr Hne.
  assert (chunk = take n (h_data h) ∧ h_data h' = drop n (h_data h)) as [-> ->].
  { destruct (h_reads h) as [[|k]|]; simplify_eq/=; done. }
  destruct n as [|n]; [by rewrite take_0 in Hne|].
  destruct (h_data h) as [|b d]; [done|].
  rewrite length_drop. simpl. lia.
Qed.

(** Matching on a value while remembering the equation, for the termination
    proof of the chunk loop. *)
Definition inspect {A} (a : A) : {b : A | a = b} := exist _ a eq_refl.

Section hashing.
Context {hlib : HashLib}.

(** The loop [for chunk in iter(lambda: f.read(4096), b""): h.update(chunk)]:
    [None] when a read raises, otherwise the hash object after the last
    chunk. *)
Equations? read_chunks (h : handle) (st : hash_state) : option hash_state
  by wf (length (h_data h)) lt :=
  read_chunks h st with inspect (f_read h 4096) := {
    | exist _ None Hr := None
    | exist _ (Some (pair chunk h')) Hr with decide (chunk = []) := {
      | left _ := Some st
      | right Hne := read_chunks h' (update st chunk) } }.
Proof. by eapply f_read_shrinks. Qed.

(** [open(filepath, "rb")] on this file system followed by the chunk loop,
    inside [try ... except Exception: return None]. *)
Definition hash_handle (f : handle) : option string :=
  hexdigest <$> read_chunks f sha256.

End hashing.

(** ** Sets of paths *)

(** [list(s)] and [for x in s] on a [set] of [str]: the elements in an order
    that depends on the string hashes of the interpreter run.  Any
    enumeration is possible. *)
Class PySet := {
  set_list : gset path → list path;
  set_list_perm : ∀ s, set_list s ≡ₚ elements s
}.

(** Two interpreters: one whose sets happen to iterate in ascending order,
    one whose sets iterate in descending order. *)
Program Definition ascending : PySet :=
  {| set_list s := sorted (elements s) |}.
Next Obligation. intros s. apply merge_sort_Permutation. Qed.

Program Definition descending : PySet :=
  {| set_list s := reverse (sorted (elements s)) |}.
Next Obligation.
  intros s. rewrite reverse_Permutation. apply merge_sort_Permutation.
Qed.

(** ** The file system *)

(** What [os.scandir] shows of a directory entry: a file, or a directory with
    its own entries; [Dir None] is a directory that cannot be listed. *)
#[warnings="-register-all"]
Inductive node :=
| File
| Dir (listing : option (list (string * node))).

(** The world the scripts read: the tree found at a top folder ([None] when
    the folder does not exist) and the outcome of [open(path, "rb")] ([None]
    when it raises). *)
Record filesystem := FileSystem {
  fs_top : string → option node;
  fs_open : string → option handle
}.

(** A file system given by tables. *)
Definition fs_of (tops : list (string * node)) (files : list (string * handle)) :
    filesystem :=
  FileSystem (λ p, (list_to_map tops : gmap string node) !! p)
             (λ p, (list_to_map files : gmap string handle) !! p).

(** A regular file with the given text, read without errors. *)
Definition text (s : string) : handle := Handle (str_bytes s) None.

Definition is_dir (n : node) : bool :=
  match n with Dir _ => true | File => false end.

(** The names of the subdirectories and of the other entries of a listing,
    as [os.walk] splits them. *)
Definition dir_names (es : list (string * node)) : list string :=
  (filter (λ e, is_dir e.2 = true) es).*1.

Definition file_names (es : list (string * node)) : list string :=
  (filter (λ e, is_dir e.2 = false) es).*1.

(** [os.walk(top)], top-down, with the default [onerror=None]: a directory
    whose listing fails yields nothing and is not descended into.  Each
    triple is [(root, dirs, files)]; [root] is kept as the list of directory
    names that lead to it from [top]. *)
Fixpoint walk (root : list string) (n : node) :
    list (list string * list string * list string) :=
  match n with
  | File => []
  | Dir None => []
  | Dir (Some es) =>
      (root, dir_names es, file_names es) ::
      flat_map (λ e, if is_dir e.2 then walk (root ++ [e.1]) e.2 else []) es
  end.

Definition os_walk (fs : filesystem) (top : string) :
    list (list string * list string * list string) :=
  match fs_top fs top with
  | Some n => walk [] n
  | None => []
  end.

(** [os.path.relpath(os.path.join(root, name), folder)] where [root] was
    yielded by [os.walk(folder)]: the names below [folder], joined. *)
Definition relpath_join (root : list string) (name : string) : path :=
  String.concat "/" (root ++ [name]).

Definition endswith_sep (s : string) : bool :=
  bool_decide (String.substring (String.length s - 1) 1 s = "/").

(** [os.path.join(a, b)] of [posixpath]. *)
Definition os_path_join (a b : string) : string :=
  if String.prefix "/" b then b
  else if bool_decide (a = "") || endswith_sep a then a +:+ b
  else a +:+ "/" +:+ b.

(** ** Rename pairing, as the specification words it

    Section 4.4 of the specification: the files of the second side are taken
    in a given order; a file whose digest still has a candidate on the first
    side is paired with the first such candidate, which is then no longer a
    candidate.  The two orders are arguments. *)

(** The remaining first-side files with digest [h], in their order. *)
Definition candidates (hA : path → option string) (As : list path)
    (h : string) : list path :=
  filter (λ a, hA a = Some h) As.

Section pairing.
Variables hA hB : path → option string.

Fixpoint rename_pairs (As Bs : list path) : list (path * path) :=
  match Bs with
  | [] => []
  | b :: Bs =>
      match hB b with
      | Some h =>
          match candidates hA As h with
          | a :: _ => (a, b) :: rename_pairs (filter (λ x, x ≠ a) As) Bs
          | [] => rename_pairs As Bs
          end
      | None => rename_pairs As Bs
      end
  end.

End pairing.

(** The files only in the first folder, only in the second, and in both:
    the three sorted lists that [compare_folders] makes of the two sets of
    files, in both scripts. *)
Definition file_lists (files1 files2 : gset path) :
    list path * list path * list path :=
  (sorted (elements (files1 ∖ files2)),
   sorted (elements (files2 ∖ files1)),
   sorted (elements (files1 ∩ files2))).

(** * gama_3.py *)

Module Gama3.

(** What [compare_folders] prints and hands to [save_to_excel]. *)
Record report := Report {
  only_in_folder1 : list path;
  only_in_folder2 : list path;
  different_files : list path;
  identical_files : list path;
  failed_comparisons : list path;
  changed_files : list (path * path);
  total_checked : nat
}.

(** The variables of the second loop of [detect_changed_files]. *)
Record detect_state := DetectState {
  ds_changed : list (path * path);
  ds_unmatched1 : gset path;
  ds_unmatched2 : gset path;
  ds_hash_to_files1 : gmap string (list path)
}.

(** The variables of the comparison loop of [compare_folders]. *)
Record compare_state := CompareState {
  cs_different : list path;
  cs_identical : list path;
  cs_failed : list path;
  cs_total : nat
}.

Section gama_3.
Context {hlib : HashLib} {pyset : PySet}.
Variable fs : filesystem.

Definition get_all_files (folder : string) : gset path :=
  let file_paths :=
    flat_map (λ '(root, _, files), relpath_join root <$> files)
             (os_walk fs folder) in
  list_to_set file_paths.

(** [None] is Python's [None]: any exception of [open] or [read] is caught. *)
Definition get_file_hash (filepath : string) : option string :=
  match fs_open fs filepath with
  | Some f => hash_handle f
  | None => None
  end.

(** [hash_to_files1.setdefault(hash_val, []).append(file)] when the file
    could be hashed. *)
Definition record_hash (folder1 : string)
    (hash_to_files1 : gmap string (list path)) (file : path) :
    gmap string (list path) :=
  match get_file_hash (os_path_join folder1 file) with
  | Some hash_val =>
      <[hash_val := default [] (hash_to_files1 !! hash_val) ++ [file]]>
        hash_to_files1
  | None => hash_to_files1
  end.

(** The body of the loop over the extra files of the second folder.  [None]
    is the [IndexError] of [pop(0)] on an empty list. *)
Definition match_file (folder2 : string) (st : detect_state) (file : path) :
    option detect_state :=
  match get_file_hash (os_path_join folder2 file) with
  | Some hash_val =>
      match ds_hash_to_files1 st !! hash_val with
      | Some candidates =>
          match candidates with
          | orig_file :: rest =>
              Some (DetectState
                      (ds_changed st ++ [(orig_file, file)])
                      (ds_unmatched1 st ∖ {[orig_file]})
                      (ds_unmatched2 st ∖ {[file]})
                      (if rest is [] then delete hash_val (ds_hash_to_files1 st)
                       else <[hash_val := rest]> (ds_hash_to_files1 st)))
          | [] => None
          end
      | None => Some st
      end
  | None => Some st
  end.

Fixpoint match_files (folder2 : string) (files : list path)
    (st : detect_state) : option detect_state :=
  match files with
  | [] => Some st
  | file :: files => st' ← match_file folder2 st file; match_files folder2 files st'
  end.

Definition detect_changed_files (folder1 folder2 : string)
    (extra_files1 extra_files2 : list path) :
    option (list (path * path) * list path * list path) :=
  let unmatched_extra_files1 : gset path := list_to_set extra_files1 in
  let unmatched_extra_files2 : gset path := list_to_set extra_files2 in
  let hash_to_files1 :=
    foldl (record_hash folder1) ∅ (set_list unmatched_extra_files1) in
  st ← match_files folder2 (set_list unmatched_extra_files2)
         (DetectState [] unmatched_extra_files1 unmatched_extra_files2
                      hash_to_files1);
  Some (ds_changed st, set_list (ds_unmatched1 st), set_list (ds_unmatched2 st)).

(** The body of the loop over the common files. *)
Definition compare_file (folder1 folder2 : string) (st : compare_state)
    (file : path) : compare_state :=
  let hash1 := get_file_hash (os_path_join folder1 file) in
  let hash2 := get_file_hash (os_path_join folder2 file) in
  match hash1, hash2 with
  | Some h1, Some h2 =>
      if decide (h1 ≠ h2)
      then CompareState (cs_different st ++ [file]) (cs_identical st)
                        (cs_failed st) (cs_total st + 1)
      else CompareState (cs_different st) (cs_identical st ++ [file])
                        (cs_failed st) (cs_total st + 1)
  | _, _ =>
      CompareState (cs_different st) (cs_identical st)
                   (cs_failed st ++ [file]) (cs_total st + 1)
  end.

Definition compare_common (folder1 folder2 : string)
    (common_files : list path) : compare_state :=
  foldl (compare_file folder1 folder2) (CompareState [] [] [] 0) common_files.

Definition compare_folders (folder1 folder2 : string) : option report :=
  let files1 := get_all_files folder1 in
  let files2 := get_all_files folder2 in
  let '(only_in_folder1, only_in_folder2, common_files) :=
    file_lists files1 files2 in
  let st := compare_common folder1 folder2 common_files in
  '(changed_files, only_in_folder1, only_in_folder2) ←
    detect_changed_files folder1 folder2 only_in_folder1 only_in_folder2;
  Some (Report only_in_folder1 only_in_folder2
               (cs_different st) (cs_identical st) (cs_failed st)
               changed_files (cs_total st)).

(** ** The dictionary of candidates against the reference pairing *)

(** The digest of a file of one side, as both loops compute it. *)
Definition side_hash (folder : string) (file : path) : option string :=
  get_file_hash (os_path_join folder file).

(** [hash_to_files1] holds, under each digest, the candidates among [rest]
    in order, and no key for a digest without candidates. *)
Definition holds_candidates (folder1 : string) (rest : list path)
    (m : gmap string (list path)) : Prop :=
  ∀ h, m !! h = match candidates (side_hash folder1) rest h with
                | [] => None
                | l => Some l
                end.

(** The three outcomes for a file of both folders. *)
Definition unreadable (folder1 folder2 : string) (file : path) : Prop :=
  side_hash folder1 file = None ∨ side_hash folder2 file = None.

Definition same_digest (folder1 folder2 : string) (file : path) : Prop :=
  ∃ d, side_hash folder1 file = Some d ∧ side_hash folder2 file = Some d.

Definition other_digest (folder1 folder2 : string) (file : path) : Prop :=
  ∃ d1 d2, side_hash folder1 file = Some d1 ∧
           side_hash folder2 file = Some d2 ∧ d1 ≠ d2.

End gama_3.

End Gama3.

(** * beta_version_3.py *)

Module Beta3.

(** What [compare_folders] prints. *)
Record report := Report {
  only_files_in_folder1 : list path;
  only_files_in_folder2 : list path;
  only_folders_in_folder1 : list path;
  only_folders_in_folder2 : list path;
  different_files : list path;
  identical_files : list path
}.

(** [only_folders_in_folder1] and [only_folders_in_folder2]. *)
Definition folder_lists (folders1 folders2 : gset path) : list path * list path :=
  (sorted (elements (folders1 ∖ folders2)),
   sorted (elements (folders2 ∖ folders1))).

Section beta_version_3.
Context {hlib : HashLib}.
Variable fs : filesystem.

Definition get_all_files_and_folders (folder : string) : gset path * gset path :=
  let triples := os_walk fs folder in
  let folder_paths :=
    flat_map (λ '(root, dirs, _), relpath_join root <$> dirs) triples in
  let file_paths :=
    flat_map (λ '(root, _, files), relpath_join root <$> files) triples in
  (list_to_set file_paths, list_to_set folder_paths).

(** No [try] here: [None] is an exception of [open] or [read] that leaves
    the function. *)
Definition get_file_hash (filepath : string) : option string :=
  match fs_open fs filepath with
  | Some f => hash_handle f
  | None => None
  end.

(** The loop over the common files; an exception of [get_file_hash] ends
    it and the run. *)
Fixpoint compare_common (folder1 folder2 : string) (common_files : list path)
    (different_files identical_files : list path) :
    option (list path * list path) :=
  match common_files with
  | [] => Some (different_files, identical_files)
  | file :: common_files =>
      hash1 ← get_file_hash (os_path_join folder1 file);
      hash2 ← get_file_hash (os_path_join folder2 file);
      if decide (hash1 ≠ hash2)
      then compare_common folder1 folder2 common_files
                          (different_files ++ [file]) identical_files
      else compare_common folder1 folder2 common_files
                          different_files (identical_files ++ [file])
  end.

Definition compare_folders (folder1 folder2 : string) : option report :=
  let '(files1, folders1) := get_all_files_and_folders folder1 in
  let '(files2, folders2) := get_all_files_and_folders folder2 in
  let '(only_files_in_folder1, only_files_in_folder2, common_files) :=
    file_lists files1 files2 in
  let '(only_folders_in_folder1, only_folders_in_folder2) :=
    folder_lists folders1 folders2 in
  '(different_files, identical_files) ←
    compare_common folder1 folder2 common_files [] [];
  Some (Report only_files_in_folder1 only_files_in_folder2
               only_folders_in_folder1 only_folders_in_folder2
               different_files identical_files).

End beta_version_3.

End Beta3.

(** * Statements of the specification about gama_3.py

    Four sentences of the specification, written down as they stand.  The
    script does not satisfy them; what it does instead is proved further
    down. *)

Section statements.
Context {hlib : HashLib} {pyset : PySet}.
Variable fs : filesystem.

(** Section 4.4, steps 2 and 3: candidates in the sorted order of the files
    only in the first folder, the files only in the second folder taken in
    ascending order. *)
Definition renames_in_sorted_order (folder1 folder2 : string)
    (extra_files1 extra_files2 : list path) : Prop :=
  ∃ rem1 rem2,
    Gama3.detect_changed_files fs folder1 folder2 extra_files1 extra_files2 =
    Some (rename_pairs (Gama3.side_hash fs folder1) (Gama3.side_hash fs folder2)
                       (sorted (elements (list_to_set extra_files1 : gset path)))
                       (sorted (elements (list_to_set extra_files2 : gset path))),
          rem1, rem2).

(** Section 8, duplicate content: of two first-side files [x1] and [x2] with
    digest [d], the lowest-sorted is paired with the only second-side file
    [y1] with digest [d]; the other one stays. *)
Definition duplicate_pairs_lowest (folder1 folder2 : string)
    (extra_files1 extra_files2 : list path) (x1 x2 y1 : path) (d : string) :
    Prop :=
  x1 ∈ extra_files1 → x2 ∈ extra_files1 → x1 ≠ x2 → str_le x1 x2 →
  Gama3.side_hash fs folder1 x1 = Some d →
  Gama3.side_hash fs folder1 x2 = Some d →
  (∀ a, a ∈ extra_files1 → Gama3.side_hash fs folder1 a = Some d →
        a = x1 ∨ a = x2) →
  y1 ∈ extra_files2 → Gama3.side_hash fs folder2 y1 = Some d →
  (∀ b, b ∈ extra_files2 → Gama3.side_hash fs folder2 b = Some d → b = y1) →
  ∃ changed rem1 rem2,
    Gama3.detect_changed_files fs folder1 folder2 extra_files1 extra_files2 =
    Some (changed, rem1, rem2) ∧
    (x1, y1) ∈ changed ∧
    (∀ a b, (a, b) ∈ changed → Gama3.side_hash fs folder1 a = Some d →
            (a, b) = (x1, y1)) ∧
    x2 ∈ rem1.

(** Section 4.4, step 1, and section 8: a file of one folder only that
    cannot be hashed becomes an unreadable entry, counted as such, leaves
    the one-sided list and is in no rename pair. *)
Definition unreadable_extra_reported (folder1 folder2 : string) : Prop :=
  ∀ r x,
    Gama3.compare_folders fs folder1 folder2 = Some r →
    (x ∈ Gama3.get_all_files fs folder1 ∖ Gama3.get_all_files fs folder2 ∧
     Gama3.side_hash fs folder1 x = None) ∨
    (x ∈ Gama3.get_all_files fs folder2 ∖ Gama3.get_all_files fs folder1 ∧
     Gama3.side_hash fs folder2 x = None) →
    x ∈ Gama3.failed_comparisons r ∧
    (x ∉ Gama3.only_in_folder1 r) ∧
    (x ∉ Gama3.only_in_folder2 r) ∧
    (x ∉ (Gama3.changed_files r).*1) ∧
    (x ∉ (Gama3.changed_files r).*2).


(** A top folder that [os.walk] cannot list: missing, not a directory, or
    a directory whose listing fails. *)
Definition not_listable (folder : string) : Prop :=
  match fs_top fs folder with
  | Some (Dir (Some _)) => False
  | _ => True
  end.

(** Section 7: a root that does not exist or cannot be listed makes the
    comparison fail, without a report. *)
Definition missing_root_fails (folder1 folder2 : string) : Prop :=
  not_listable folder1 ∨ not_listable folder2 →
  Gama3.compare_folders fs folder1 folder2 = None.

End statements.

(** * Example trees *)

(** Two files with the same content in folder [a], one with that content in
    folder [b]. *)
Definition fs_duplicates : filesystem :=
  fs_of [("a", Dir (Some [("x1", File); ("x2", File)]));
         ("b", Dir (Some [("y1", File)]))]
        [("a/x1", text "data"); ("a/x2", text "data"); ("b/y1", text "data")].

(** A file renamed from [foo.txt] to [bar.txt], next to a file that did not
    move and one whose content changed. *)
Definition fs_renamed : filesystem :=
  fs_of [("a", Dir (Some [("foo.txt", File); ("same.txt", File);
                          ("edit.txt", File)]));
         ("b", Dir (Some [("bar.txt", File); ("same.txt", File);
                          ("edit.txt", File)]))]
        [("a/foo.txt", text "payload"); ("b/bar.txt", text "payload");
         ("a/same.txt", text "hello"); ("b/same.txt", text "hello");
         ("a/edit.txt", text "world"); ("b/edit.txt", text "WORLD")].

(** Folder [a] has a file that cannot be opened and one whose first read
    fails; folder [b] has a subfolder. *)
Definition fs_unreadable : filesystem :=
  fs_of [("a", Dir (Some [("locked.bin", File); ("broken.bin", File);
                          ("ok.txt", File)]));
         ("b", Dir (Some [("ok.txt", File); ("sub", Dir (Some [("new.txt", File)]))]))]
        [("a/broken.bin", Handle (str_bytes "abc") (Some 0));
         ("a/ok.txt", text "ok"); ("b/ok.txt", text "ok");
         ("b/sub/new.txt", text "new")].

(** * What else the two scripts do *)

(** ** Reading a file to its end *)

(** The number of [read] calls that the chunk loop makes on a file with the
    given content: one for each chunk of up to 4096 bytes, and the one that
    returns [b""]. *)
Definition read_calls (data : bytes) : nat := (length data + 4095) / 4096 + 1.

(** The device lets the loop read the file to its end. *)
Definition reads_suffice (f : handle) : Prop :=
  match h_reads f with
  | None => True
  | Some k => read_calls (h_data f) ≤ k
  end.

#[global] Instance reads_suffice_dec f : Decision (reads_suffice f).
Proof. unfold reads_suffice. destruct (h_reads f); apply _. Defined.

(** ** Directories that [os.walk] gets to *)

(** The listing found below a node by going down the given directory names,
    every directory on the way being listable. *)
Inductive reaches : node → list string → list (string * node) → Prop :=
| reaches_here es : reaches (Dir (Some es)) [] es
| reaches_down es d n root es' :
    (d, n) ∈ es → reaches n root es' → reaches (Dir (Some es)) (d :: root) es'.

(** A folder with a file, a subfolder that can be listed and one that
    cannot. *)
Definition fs_locked_dir : filesystem :=
  fs_of [("a", Dir (Some [("top.txt", File);
                          ("docs", Dir (Some [("readme.md", File);
                                              ("old", Dir (Some []))]));
                          ("private", Dir None)]))]
        [("a/top.txt", text "t"); ("a/docs/readme.md", text "r")].

(** ** More on strings *)

(** A string that begins another. *)
Inductive sprefix : string → string → Prop :=
| sprefix_nil s : sprefix EmptyString s
| sprefix_cons c p s : sprefix p s → sprefix (String c p) (String c s).

(** The string of some bytes. *)
Definition str_of (l : list nat) : string :=
  String.string_of_list_ascii (Ascii.ascii_of_nat <$> l).

(** [s.replace(old, new)] for an [old] of one ASCII character. *)
Fixpoint replace (old : Ascii.ascii) (new : string) (s : string) : string :=
  match s with
  | EmptyString => EmptyString
  | String c s =>
      if decide (c = old) then new +:+ replace old new s
      else String c (replace old new s)
  end.

(** The characters (bytes) of a string. *)
Definition chars (s : string) : list Ascii.ascii := String.list_ascii_of_string s.

(** A string changed byte by byte. *)
Fixpoint string_map (g : Ascii.ascii → Ascii.ascii) (s : string) : string :=
  match s with
  | EmptyString => EmptyString
  | String c s => String (g c) (string_map g s)
  end.

(** ** clean_sheet_name, the same in both scripts *)

Definition invalid_chars : list Ascii.ascii :=
  ["\"; "/"; "*"; "["; "]"; ":"; "?"]%char.

Definition clean_sheet_name (name : string) : string :=
  let name := foldl (λ name char, replace char "-" name) name invalid_chars in
  py_take 31 name.

(** One pass over the name that puts a dash for each invalid character. *)
Definition dash_invalid (name : string) : string :=
  string_map (λ c, if decide (c ∈ invalid_chars) then "-"%char else c) name.

(** ** The rows of the workbooks

    [save_to_excel] hands the rows of its sheets to openpyxl one at a time,
    with [ws.append].  What is held here is the rows that the scripts make
    for it, in order.  openpyxl can refuse a value (a string with a control
    character raises [IllegalCharacterError]), and the file may not be
    writable; the run then ends without a workbook.  Nothing below says that
    a workbook is saved. *)

(** *** save_to_excel of gama_3.py *)

Module Gama3Excel.

(** The list [all_files]: the rows for the main sheet, below its headers. *)
Definition all_files (folder1 folder2 : string)
    (only_in_folder1 only_in_folder2 different_files identical_files
       failed_comparisons : list path) : list (path * string * string) :=
  ((λ f, (f, "Extra", folder1)) <$> only_in_folder1) ++
  ((λ f, (f, "Extra", folder2)) <$> only_in_folder2) ++
  ((λ f, (f, "Different", "Both folders")) <$> different_files) ++
  ((λ f, (f, "Identical", "Both folders")) <$> identical_files) ++
  ((λ f, (f, "Failed", "Comparison failed")) <$> failed_comparisons).

(** The rows for the sheet [Summary], below its headers: a category and its
    count. *)
Definition summary_rows (folder1 folder2 : string)
    (only_in_folder1 only_in_folder2 different_files identical_files
       failed_comparisons : list path)
    (changed_files : list (path * path)) (total_checked : nat) :
    list (string * nat) :=
  [("Total files checked", total_checked);
   ("Identical files", length identical_files);
   ("Different files", length different_files);
   ("Changed file names", length changed_files);
   ("Only in " +:+ folder1, length only_in_folder1);
   ("Only in " +:+ folder2, length only_in_folder2);
   ("Failed comparisons", length failed_comparisons)].

(** The two lists for the call of [save_to_excel] that ends
    [compare_folders]. *)
Definition rows_of (folder1 folder2 : string) (r : Gama3.report) :
    list (path * string * string) :=
  all_files folder1 folder2
    (Gama3.only_in_folder1 r) (Gama3.only_in_folder2 r)
    (Gama3.different_files r) (Gama3.identical_files r)
    (Gama3.failed_comparisons r).

Definition summary_of (folder1 folder2 : string) (r : Gama3.report) :
    list (string * nat) :=
  summary_rows folder1 folder2
    (Gama3.only_in_folder1 r) (Gama3.only_in_folder2 r)
    (Gama3.different_files r) (Gama3.identical_files r)
    (Gama3.failed_comparisons r) (Gama3.changed_files r)
    (Gama3.total_checked r).

End Gama3Excel.

(** *** save_to_excel of beta_version_3.py *)

Module Beta3Excel.

(** The list [all_entries]: the rows for the sheet, below its headers. *)
Definition all_entries (folder1 folder2 : string)
    (only_folders_in_folder1 only_folders_in_folder2 only_files_in_folder1
       only_files_in_folder2 different_files identical_files : list path) :
    list (string * path * string * string) :=
  ((λ f, ("📂 Folder", f, "Extra", folder1)) <$> only_folders_in_folder1) ++
  ((λ f, ("📂 Folder", f, "Extra", folder2)) <$> only_folders_in_folder2) ++
  ((λ f, ("📁 File", f, "Extra", folder1)) <$> only_files_in_folder1) ++
  ((λ f, ("📁 File", f, "Extra", folder2)) <$> only_files_in_folder2) ++
  ((λ f, ("📁 File", f, "Different", "Both folders")) <$> different_files) ++
  ((λ f, ("📁 File", f, "Identical", "Both folders")) <$> identical_files).

(** The list for the call of [save_to_excel] that ends [compare_folders]. *)
Definition entries_of (folder1 folder2 : string) (r : Beta3.report) :
    list (string * path * string * string) :=
  all_entries folder1 folder2
    (Beta3.only_folders_in_folder1 r) (Beta3.only_folders_in_folder2 r)
    (Beta3.only_files_in_folder1 r) (Beta3.only_files_in_folder2 r)
    (Beta3.different_files r) (Beta3.identical_files r).

End Beta3Excel.

(** * Proofs *)

(** ** The chunk loop *)

Section hashing_facts.
Context {hlib : HashLib}.

(** One turn of the loop. *)
Lemma read_chunks_step h st :
  read_chunks h st =
  match f_read h 4096 with
  | None => None
  | Some (chunk, h') =>
      if decide (chunk = []) then Some st else read_chunks h' (update st chunk)
  end.
Proof.
  rewrite read_chunks_equation_1.
  generalize (inspect (f_read h 4096)). intros [o Ho].
  transitivity (match o with
                | None => None
                | Some (chunk, h') =>
                    if decide (chunk = []) then Some st
                    else read_chunks h' (update st chunk)
                end); [|by rewrite Ho].
  destruct o as [[chunk h']|]; simpl; [|done].
  unfold read_chunks_unfold_clause_1_clause_2.
  by destruct (decide (chunk = [])).
Qed.

(** On a file whose reads do not fail the loop feeds the whole content. *)
Lemma read_chunks_all data st :
  read_chunks (Handle data None) st = Some (update st data).
Proof.
  remember (length data) as n eqn:Hn.
  revert data st Hn. induction (lt_wf n) as [n _ IH]. intros data st ->.
  rewrite read_chunks_step. unfold f_read. simpl.
  destruct (decide (take 4096 data = [])) as [Hnil|Hne].
  - destruct data; [by rewrite update_nil|done].
  - assert (length (drop 4096 data) < length data) as Hlt.
    { destruct data; [done|]. rewrite length_drop. simpl. lia. }
    rewrite (IH _ Hlt (drop 4096 data) _ eq_refl).
    by rewrite update_update, take_drop.
Qed.

Lemma hash_handle_all data :
  hash_handle (Handle data None) = Some (sha256_hex data).
Proof. unfold hash_handle. by rewrite read_chunks_all. Qed.

(** A read that raises at any point leaves no digest. *)
Lemma read_chunks_raise data st : read_chunks (Handle data (Some 0)) st = None.
Proof. by rewrite read_chunks_step. Qed.

(** C8. The digest that [get_file_hash] returns for a file that reads
    without error is the SHA-256 digest of the whole content taken in one
    pass, although the file is fed to the hash object in chunks of 4096
    bytes; it is 64 hexadecimal digits, that is 256 bits, and it depends
    on the content only: the same content gives the same digest again,
    under any path. *)
Theorem get_file_hash_whole_content (fs : filesystem) filepath data :
  fs_open fs filepath = Some (Handle data None) →
  Gama3.get_file_hash fs filepath = Some (sha256_hex data) ∧
  String.length (sha256_hex data) = 64 ∧
  ∀ (fs' : filesystem) filepath',
    fs_open fs' filepath' = Some (Handle data None) →
    Gama3.get_file_hash fs' filepath' = Gama3.get_file_hash fs filepath.
Proof.
  intros Hf. unfold Gama3.get_file_hash. rewrite Hf, hash_handle_all.
  split_and!; [done|apply hexdigest_length|].
  intros fs' filepath' ->. by rewrite hash_handle_all.
Qed.

End hashing_facts.

(** A file of 8200 bytes: three chunks, the last one short. *)
Example get_file_hash_three_chunks :
  Gama3.get_file_hash
    (fs_of [] [("a/big.bin", Handle (replicate (82 * 100) Byte.x61) None)]) "a/big.bin" =
  Some "d8279234ea4354c665df98dc48ccfcf6cd31191d53e5b1c437d45592deaa6bff".
Proof. vm_compute. reflexivity. Qed.

Lemma get_file_hash_whole_content_witness :
  Gama3.get_file_hash fs_renamed "a/same.txt" =
  Some "2cf24dba5fb0a30e26e83b2ac5b9e29e1b161e5c1fa7425e73043362938b9824".
Proof.
  pose proof (get_file_hash_whole_content fs_renamed "a/same.txt"
                (str_bytes "hello") eq_refl) as [Hw _].
  rewrite Hw. vm_compute. reflexivity.
Defined.

(** ** Sorted lists of sets *)

Lemma sorted_Permutation l : sorted l ≡ₚ l.
Proof. apply merge_sort_Permutation. Qed.

Lemma elem_of_sorted_elements (X : gset path) x : x ∈ sorted (elements X) ↔ x ∈ X.
Proof. by rewrite sorted_Permutation, elem_of_elements. Qed.

Lemma sorted_elements_NoDup (X : gset path) : NoDup (sorted (elements X)).
Proof. rewrite sorted_Permutation. apply NoDup_elements. Qed.

Lemma list_to_set_sorted_elements (X : gset path) :
  list_to_set (sorted (elements X)) = X.
Proof.
  apply set_eq. intros x. by rewrite elem_of_list_to_set, elem_of_sorted_elements.
Qed.

(** C6. The files only in the first folder, only in the second and in both
    are the two differences and the intersection of the two sets of files:
    a path is in the list that its presence in the two sets decides and in
    no other, the one-sided lists are disjoint, and together the three lists
    hold the union of the two sets. *)
Theorem file_lists_partition (files1 files2 : gset path) :
  let '(only_in_folder1, only_in_folder2, common_files) :=
    file_lists files1 files2 in
  (∀ x, x ∈ only_in_folder1 ↔ x ∈ files1 ∧ x ∉ files2) ∧
  (∀ x, x ∈ only_in_folder2 ↔ x ∈ files2 ∧ x ∉ files1) ∧
  (∀ x, x ∈ common_files ↔ x ∈ files1 ∧ x ∈ files2) ∧
  (∀ x, ¬ (x ∈ only_in_folder1 ∧ x ∈ only_in_folder2)) ∧
  (∀ x, ¬ (x ∈ only_in_folder1 ∧ x ∈ common_files)) ∧
  (∀ x, ¬ (x ∈ only_in_folder2 ∧ x ∈ common_files)) ∧
  (list_to_set only_in_folder1 : gset path) = files1 ∖ files2 ∧
  (list_to_set only_in_folder2 : gset path) = files2 ∖ files1 ∧
  (list_to_set common_files : gset path) = files1 ∩ files2 ∧
  (list_to_set only_in_folder1 ∪ list_to_set only_in_folder2 ∪
   list_to_set common_files : gset path) = files1 ∪ files2 ∧
  NoDup (only_in_folder1 ++ only_in_folder2 ++ common_files).
Proof.
  unfold file_lists.
  assert (∀ x, x ∈ sorted (elements (files1 ∖ files2)) ↔ x ∈ files1 ∧ x ∉ files2)
    as H1 by (intros x; by rewrite elem_of_sorted_elements, elem_of_difference).
  assert (∀ x, x ∈ sorted (elements (files2 ∖ files1)) ↔ x ∈ files2 ∧ x ∉ files1)
    as H2 by (intros x; by rewrite elem_of_sorted_elements, elem_of_difference).
  assert (∀ x, x ∈ sorted (elements (files1 ∩ files2)) ↔ x ∈ files1 ∧ x ∈ files2)
    as H3 by (intros x; by rewrite elem_of_sorted_elements, elem_of_intersection).
  split_and!; try done.
  - intros x. rewrite H1, H2. tauto.
  - intros x. rewrite H1, H3. tauto.
  - intros x. rewrite H2, H3. tauto.
  - apply list_to_set_sorted_elements.
  - apply list_to_set_sorted_elements.
  - apply list_to_set_sorted_elements.
  - rewrite !list_to_set_sorted_elements. apply set_eq. intros x.
    rewrite !elem_of_union, elem_of_intersection, !elem_of_difference.
    destruct (decide (x ∈ files1)), (decide (x ∈ files2)); tauto.
  - rewrite !NoDup_app. split_and!; try apply sorted_elements_NoDup.
    + intros x. rewrite elem_of_app, H1, H2, H3. tauto.
    + intros x. rewrite H2, H3. tauto.
Qed.

(** ** The reference pairing *)

Lemma filter_all {A} (P : A → Prop) `{!∀ x, Decision (P x)} l :
  Forall P l → filter P l = l.
Proof.
  induction 1 as [|x l Hx _ IH]; [done|].
  by rewrite filter_cons_True, IH.
Qed.

Lemma filter_sublist_mono {A} (P : A → Prop) `{!∀ x, Decision (P x)} l1 l2 :
  l1 `sublist_of` l2 → filter P l1 `sublist_of` filter P l2.
Proof.
  induction 1 as [|x l1 l2 _ IH|x l1 l2 _ IH]; [done| |].
  - rewrite !filter_cons. destruct (decide (P x)); [by constructor|done].
  - rewrite filter_cons. destruct (decide (P x)); [by constructor|done].
Qed.

Lemma candidates_head hA As h a rest :
  candidates hA As h = a :: rest → a ∈ As ∧ hA a = Some h.
Proof.
  intros Hc. assert (a ∈ candidates hA As h) as Ha by (rewrite Hc; left).
  apply list_elem_of_filter in Ha. tauto.
Qed.

Section pairing_facts.
Variables hA hB : path → option string.

Lemma rename_pairs_sound As Bs a b :
  (a, b) ∈ rename_pairs hA hB As Bs →
  a ∈ As ∧ b ∈ Bs ∧ ∃ h, hA a = Some h ∧ hB b = Some h.
Proof.
  revert As. induction Bs as [|b0 Bs IH]; intros As; simpl; [by inv 1|].
  destruct (hB b0) as [h0|] eqn:Hb0.
  - destruct (candidates hA As h0) as [|a0 rest] eqn:Hc.
    + intros (?&?&?)%IH. split_and!; [done|by right|done].
    + apply candidates_head in Hc as [Ha0 Hh0].
      intros [[= -> ->]|Hin]%elem_of_cons.
      * split_and!; [done|by left|eauto].
      * apply IH in Hin as (Hin&?&?). apply list_elem_of_filter in Hin as [_ ?].
        split_and!; [done|by right|done].
  - intros (?&?&?)%IH. split_and!; [done|by right|done].
Qed.

Lemma rename_pairs_fst_NoDup As Bs : NoDup (rename_pairs hA hB As Bs).*1.
Proof.
  revert As. induction Bs as [|b0 Bs IH]; intros As; simpl; [constructor|].
  destruct (hB b0) as [h0|]; [|done].
  destruct (candidates hA As h0) as [|a0 rest]; [done|].
  simpl. apply NoDup_cons. split; [|done].
  intros ([a b]&->&Hin)%list_elem_of_fmap.
  apply rename_pairs_sound in Hin as (Hin&_). simpl in Hin.
  apply list_elem_of_filter in Hin as [? _]. done.
Qed.

Lemma rename_pairs_snd_NoDup As Bs : NoDup Bs → NoDup (rename_pairs hA hB As Bs).*2.
Proof.
  intros HBs. revert As.
  induction HBs as [|b0 Bs Hb0 HBs IH]; intros As; simpl; [constructor|].
  destruct (hB b0) as [h0|]; [|done].
  destruct (candidates hA As h0) as [|a0 rest]; [done|].
  simpl. apply NoDup_cons. split; [|done].
  intros ([a b]&->&Hin)%list_elem_of_fmap.
  apply rename_pairs_sound in Hin as (_&?&_). done.
Qed.

Lemma rename_pairs_NoDup As Bs : NoDup (rename_pairs hA hB As Bs).
Proof. eapply NoDup_fmap_1, rename_pairs_fst_NoDup. Qed.

(** No two files with the same digest are both left over. *)
Lemma rename_pairs_maximal As Bs a b h :
  a ∈ As → b ∈ Bs → hA a = Some h → hB b = Some h →
  a ∈ (rename_pairs hA hB As Bs).*1 ∨ b ∈ (rename_pairs hA hB As Bs).*2.
Proof.
  intros Ha Hb HhA HhB. revert As Ha.
  induction Bs as [|b0 Bs IH]; intros As Ha; simpl; [by inv Hb|].
  destruct (decide (b = b0)) as [->|Hne].
  - rewrite HhB. destruct (candidates hA As h) as [|a0 rest] eqn:Hc.
    + exfalso. by eapply (filter_nil_not_elem_of (λ a, hA a = Some h)).
    + right. simpl. left.
  - assert (b ∈ Bs) as Hb' by (by apply elem_of_cons in Hb as [?|?]).
    destruct (hB b0) as [h0|]; [|by apply IH].
    destruct (candidates hA As h0) as [|a0 rest] eqn:Hc; [by apply IH|].
    simpl. destruct (decide (a = a0)) as [->|Hne'].
    + left. left.
    + destruct (IH Hb' (filter (λ x, x ≠ a0) As)) as [?|?].
      * by apply list_elem_of_filter.
      * left. by right.
      * right. by right.
Qed.

(** A paired first-side file is the first remaining one with its digest:
    whatever stands before it with the same digest is paired too. *)
Lemma rename_pairs_first As Bs a a' b :
  NoDup As → (a, b) ∈ rename_pairs hA hB As Bs →
  [a'; a] `sublist_of` As → hA a' = hA a →
  a' ∈ (rename_pairs hA hB As Bs).*1.
Proof.
  revert As. induction Bs as [|b0 Bs IH]; intros As HAs; simpl; [by inv 1|].
  destruct (hB b0) as [h0|] eqn:Hb0; [|by apply IH].
  destruct (candidates hA As h0) as [|a0 rest] eqn:Hc; [by apply IH|].
  intros Hin Hsub Heq. simpl.
  destruct (decide (a' = a0)) as [->|Hne]; [by left|right].
  apply elem_of_cons in Hin as [[= -> ->]|Hin].
  - exfalso. pose proof (candidates_head _ _ _ _ _ Hc) as [_ Hh0].
    assert ([a'; a0] `sublist_of` a0 :: rest) as Hsub'.
    { rewrite <-Hc. unfold candidates.
      apply (filter_sublist_mono (λ a, hA a = Some h0)) in Hsub.
      rewrite !filter_cons, filter_nil in Hsub.
      rewrite !decide_True in Hsub by congruence. done. }
    assert (NoDup (a0 :: rest)) as Hnd.
    { rewrite <-Hc. by apply NoDup_filter. }
    apply NoDup_cons in Hnd as [Hnin _].
    apply sublist_cons_r in Hsub' as [Hsub'|(l'&[= -> <-]&_)]; [|done].
    apply Hnin. eapply sublist_subseteq; [done|]. right. left.
  - pose proof (rename_pairs_sound _ _ _ _ Hin) as (Ha&_&_).
    apply list_elem_of_filter in Ha as [Ha _].
    eapply IH; [by apply NoDup_filter|done| |done].
    apply (filter_sublist_mono (λ x, x ≠ a0)) in Hsub.
    rewrite !filter_cons, filter_nil in Hsub.
    by rewrite !decide_True in Hsub by done.
Qed.

(** The pairs come out in the order of the second-side files. *)
Lemma rename_pairs_snd_sublist As Bs : (rename_pairs hA hB As Bs).*2 `sublist_of` Bs.
Proof.
  revert As. induction Bs as [|b0 Bs IH]; intros As; simpl; [done|].
  destruct (hB b0) as [h0|]; [|by constructor].
  destruct (candidates hA As h0) as [|a0 rest]; [by constructor|].
  simpl. by constructor.
Qed.

Lemma rename_pairs_nil_l Bs : rename_pairs hA hB [] Bs = [].
Proof.
  induction Bs as [|b0 Bs IH]; simpl; [done|]. by destruct (hB b0).
Qed.

Lemma rename_pairs_same_snd As Bs a a' b :
  NoDup Bs → (a, b) ∈ rename_pairs hA hB As Bs →
  (a', b) ∈ rename_pairs hA hB As Bs → a = a'.
Proof.
  intros HBs Hin Hin'.
  pose proof (rename_pairs_snd_NoDup As Bs HBs) as Hnd.
  revert Hnd Hin Hin'. generalize (rename_pairs hA hB As Bs). intros l.
  induction l as [|[a0 b0] l IH]; simpl; [by inv 2|].
  intros [Hnin Hnd]%NoDup_cons.
  intros [[= -> ->]|Hin]%elem_of_cons [[= ->]|Hin']%elem_of_cons; [done|..].
  - exfalso. apply Hnin. apply list_elem_of_fmap. by exists (a', b0).
  - simplify_eq. exfalso. apply Hnin. apply list_elem_of_fmap. by exists (a, b0).
  - by apply IH.
Qed.

(** Two files with a digest that no other file has are paired. *)
Lemma rename_pairs_unique_digest As Bs a b d :
  a ∈ As → b ∈ Bs → hA a = Some d → hB b = Some d →
  (∀ a', a' ∈ As → hA a' = Some d → a' = a) →
  (∀ b', b' ∈ Bs → hB b' = Some d → b' = b) →
  (a, b) ∈ rename_pairs hA hB As Bs.
Proof.
  intros Ha Hb HhA HhB HuA HuB.
  destruct (rename_pairs_maximal As Bs a b d Ha Hb HhA HhB)
    as [([a1 b1]&->&Hin)%list_elem_of_fmap|([a1 b1]&->&Hin)%list_elem_of_fmap];
    simpl in *;
    pose proof (rename_pairs_sound _ _ _ _ Hin) as (Ha1&Hb1&h&Hh1&Hh2).
  - assert (h = d) as -> by congruence. by rewrite <-(HuB b1).
  - assert (h = d) as -> by congruence. by rewrite <-(HuA a1).
Qed.

(** Two first-side files with the digest of one second-side file: the one
    that stands first is paired, the other is not. *)
Lemma rename_pairs_duplicate As Bs x1 x2 y1 d :
  NoDup As → NoDup Bs → [x1; x2] `sublist_of` As →
  hA x1 = Some d → hA x2 = Some d →
  (∀ a, a ∈ As → hA a = Some d → a = x1 ∨ a = x2) →
  y1 ∈ Bs → hB y1 = Some d →
  (∀ b, b ∈ Bs → hB b = Some d → b = y1) →
  (x1, y1) ∈ rename_pairs hA hB As Bs ∧
  (∀ a b, (a, b) ∈ rename_pairs hA hB As Bs → hA a = Some d → (a, b) = (x1, y1)) ∧
  x2 ∉ (rename_pairs hA hB As Bs).*1.
Proof.
  intros HAs HBs Hsub Hx1 Hx2 HuA Hy1 Hhy1 HuB.
  assert (x1 ∈ As ∧ x2 ∈ As) as [Hin1 Hin2].
  { split; (eapply sublist_subseteq; [done|]); [left|right; left]. }
  assert (x1 ≠ x2) as Hne.
  { intros ->. apply (sublist_NoDup _ _ HAs) in Hsub.
    apply NoDup_cons in Hsub as [Hnin _]. apply Hnin. left. }
  (* a pair with digest [d] has [y1] as its second file *)
  assert (∀ a b, (a, b) ∈ rename_pairs hA hB As Bs → hA a = Some d → b = y1)
    as Hsnd.
  { intros a b Hin Ha.
    apply rename_pairs_sound in Hin as (_&Hb&h&Hh1&Hh2).
    apply HuB; [done|congruence]. }
  (* some pair has [y1], and its first file is [x1] or [x2] *)
  assert (∃ a, (a, y1) ∈ rename_pairs hA hB As Bs ∧ (a = x1 ∨ a = x2))
    as (a&Hin&Ha).
  { destruct (rename_pairs_maximal As Bs x1 y1 d Hin1 Hy1 Hx1 Hhy1)
      as [([a1 b1]&->&Hin)%list_elem_of_fmap|([a1 b1]&->&Hin)%list_elem_of_fmap];
      simpl in *.
    - exists a1. rewrite <-(Hsnd a1 b1) by done. auto.
    - exists a1. split; [done|].
      apply rename_pairs_sound in Hin as (Ha1&_&h&Hh1&Hh2).
      apply HuA; [done|congruence]. }
  assert ((x1, y1) ∈ rename_pairs hA hB As Bs) as Hpair.
  { destruct Ha as [->| ->]; [done|].
    assert (x1 ∈ (rename_pairs hA hB As Bs).*1)
      as ([a1 b1]&->&Hin1')%list_elem_of_fmap.
    { eapply rename_pairs_first; [done..|congruence]. }
    simpl in *. by rewrite <-(Hsnd a1 b1) by done. }
  split_and!; [done| |].
  - intros a' b' Hin' Ha'. pose proof (Hsnd _ _ Hin' Ha') as ->.
    by rewrite (rename_pairs_same_snd As Bs a' x1 y1).
  - intros ([a1 b1]&->&Hin')%list_elem_of_fmap. simpl in *.
    pose proof (Hsnd _ _ Hin' Hx2) as ->.
    apply Hne. by apply (rename_pairs_same_snd As Bs x1 a1 y1).
Qed.

End pairing_facts.

(** ** gama_3.py: the dictionary of candidates *)

Import Gama3.

Section gama_3_facts.
Context {hlib : HashLib} {pyset : PySet}.
Variable fs : filesystem.

Local Abbreviation get_all_files := (get_all_files fs).
Local Abbreviation get_file_hash := (get_file_hash fs).
Local Abbreviation side_hash := (side_hash fs).
Local Abbreviation holds_candidates := (holds_candidates fs).
Local Abbreviation record_hash := (record_hash fs).
Local Abbreviation match_file := (match_file fs).
Local Abbreviation match_files := (match_files fs).
Local Abbreviation detect_changed_files := (detect_changed_files fs).
Local Abbreviation compare_file := (compare_file fs).
Local Abbreviation compare_common := (compare_common fs).
Local Abbreviation compare_folders := (compare_folders fs).
Local Abbreviation unreadable := (unreadable fs).
Local Abbreviation same_digest := (same_digest fs).
Local Abbreviation other_digest := (other_digest fs).
Local Abbreviation not_listable := (not_listable fs).

Lemma record_hash_holds folder1 rest m file :
  holds_candidates folder1 rest m →
  holds_candidates folder1 (rest ++ [file]) (record_hash folder1 m file).
Proof.
  intros Hm h. unfold record_hash, candidates.
  rewrite filter_app, filter_cons, filter_nil.
  fold (side_hash folder1 file).
  destruct (side_hash folder1 file) as [hv|] eqn:Hf.
  - destruct (decide (hv = h)) as [->|Hne].
    + rewrite lookup_insert_eq, decide_True by done.
      rewrite Hm. unfold candidates.
      by destruct (filter _ rest).
    + rewrite lookup_insert_ne, decide_False by congruence.
      rewrite app_nil_r. apply Hm.
  - rewrite decide_False by done. rewrite app_nil_r. apply Hm.
Qed.

Lemma record_hashes_hold folder1 rest m files :
  holds_candidates folder1 rest m →
  holds_candidates folder1 (rest ++ files) (foldl (record_hash folder1) m files).
Proof.
  revert rest m. induction files as [|file files IH]; intros rest m Hm; simpl.
  - by rewrite app_nil_r.
  - rewrite cons_middle, (assoc_L (++)).
    by apply IH, record_hash_holds.
Qed.

Lemma candidates_without folder1 rest a h :
  candidates (side_hash folder1) (filter (λ x, x ≠ a) rest) h =
  filter (λ x, x ≠ a) (candidates (side_hash folder1) rest h).
Proof.
  unfold candidates. rewrite !list_filter_filter.
  apply list_filter_iff. tauto.
Qed.

(** One turn of the second loop does what one step of the reference
    pairing does. *)
Lemma match_file_pairs folder1 folder2 rest st file :
  NoDup rest →
  holds_candidates folder1 rest (ds_hash_to_files1 st) →
  match side_hash folder2 file with
  | Some h =>
      match candidates (side_hash folder1) rest h with
      | a :: _ =>
          ∃ m, holds_candidates folder1 (filter (λ x, x ≠ a) rest) m ∧
               match_file folder2 st file =
               Some (DetectState (ds_changed st ++ [(a, file)])
                                 (ds_unmatched1 st ∖ {[a]})
                                 (ds_unmatched2 st ∖ {[file]}) m)
      | [] => match_file folder2 st file = Some st
      end
  | None => match_file folder2 st file = Some st
  end.
Proof.
  intros Hnd Hm. unfold match_file. fold (side_hash folder2 file).
  destruct (side_hash folder2 file) as [h|]; [|done].
  rewrite (Hm h).
  destruct (candidates (side_hash folder1) rest h) as [|a cs] eqn:Hc; [done|].
  eexists. split; [|done].
  assert (NoDup (a :: cs)) as [Ha _]%NoDup_cons.
  { rewrite <-Hc. by apply NoDup_filter. }
  assert (filter (λ x, x ≠ a) cs = cs) as Hcs.
  { apply filter_all, Forall_forall. intros x Hx ->. done. }
  destruct (candidates_head _ _ _ _ _ Hc) as [_ Hah].
  intros h'. rewrite candidates_without.
  destruct (decide (h' = h)) as [->|Hne].
  - rewrite Hc, filter_cons, decide_False, Hcs by naive_solver.
    destruct cs; [by rewrite lookup_delete_eq|by rewrite lookup_insert_eq].
  - assert (filter (λ x, x ≠ a) (candidates (side_hash folder1) rest h') =
            candidates (side_hash folder1) rest h') as ->.
    { apply filter_all, Forall_forall.
      intros x [Hx _]%list_elem_of_filter ->. congruence. }
    rewrite <-(Hm h').
    destruct cs; [by rewrite lookup_delete_ne|by rewrite lookup_insert_ne].
Qed.

Lemma match_files_pairs folder1 folder2 files rest st :
  NoDup rest →
  holds_candidates folder1 rest (ds_hash_to_files1 st) →
  let pairs := rename_pairs (side_hash folder1) (side_hash folder2) rest files in
  ∃ m, match_files folder2 files st =
       Some (DetectState (ds_changed st ++ pairs)
                         (ds_unmatched1 st ∖ list_to_set pairs.*1)
                         (ds_unmatched2 st ∖ list_to_set pairs.*2) m).
Proof.
  revert rest st. induction files as [|file files IH]; intros rest st Hnd Hm; simpl.
  - exists (ds_hash_to_files1 st). destruct st as [c u1 u2 m]. simpl.
    by rewrite app_nil_r, !difference_empty_L.
  - pose proof (match_file_pairs folder1 folder2 rest st file Hnd Hm) as Hstep.
    destruct (side_hash folder2 file) as [h|].
    + destruct (candidates (side_hash folder1) rest h) as [|a cs].
      * rewrite Hstep. simpl. by apply IH.
      * destruct Hstep as (m&Hm'&->). simpl.
        lazymatch goal with
        | |- context [match_files _ _ ?s] =>
            destruct (IH (filter (λ x, x ≠ a) rest) s) as (m'&->);
              [by apply NoDup_filter|done|]
        end.
        exists m'. simpl.
        by rewrite <-(assoc_L (++)), !difference_difference_l_L.
    + rewrite Hstep. simpl. by apply IH.
Qed.

Lemma set_list_NoDup (s : gset path) : NoDup (set_list s).
Proof. rewrite set_list_perm. apply NoDup_elements. Qed.

Lemma elem_of_set_list (s : gset path) x : x ∈ set_list s ↔ x ∈ s.
Proof. by rewrite set_list_perm, elem_of_elements. Qed.

(** [detect_changed_files] always returns, and returns the reference
    pairing over the iteration orders of the two sets. *)
Lemma detect_changed_files_pairs folder1 folder2 extra_files1 extra_files2 :
  let s1 : gset path := list_to_set extra_files1 in
  let s2 : gset path := list_to_set extra_files2 in
  let pairs := rename_pairs (side_hash folder1) (side_hash folder2)
                            (set_list s1) (set_list s2) in
  detect_changed_files folder1 folder2 extra_files1 extra_files2 =
  Some (pairs, set_list (s1 ∖ list_to_set pairs.*1),
               set_list (s2 ∖ list_to_set pairs.*2)).
Proof.
  intros s1 s2 pairs. unfold detect_changed_files.
  edestruct (match_files_pairs folder1 folder2 (set_list s2) (set_list s1))
    as (m&->); [apply set_list_NoDup| |done].
  apply (record_hashes_hold folder1 [] ∅). by intros h.
Qed.

Lemma compare_folders_unfold folder1 folder2 :
  let files1 := get_all_files folder1 in
  let files2 := get_all_files folder2 in
  let st := compare_common folder1 folder2 (file_lists files1 files2).2 in
  let s1 : gset path := list_to_set (file_lists files1 files2).1.1 in
  let s2 : gset path := list_to_set (file_lists files1 files2).1.2 in
  let pairs := rename_pairs (side_hash folder1) (side_hash folder2)
                            (set_list s1) (set_list s2) in
  compare_folders folder1 folder2 =
  Some (Report (set_list (s1 ∖ list_to_set pairs.*1))
               (set_list (s2 ∖ list_to_set pairs.*2))
               (cs_different st) (cs_identical st) (cs_failed st)
               pairs (cs_total st)).
Proof.
  intros files1 files2 st s1 s2 pairs. unfold Gama3.compare_folders.
  fold files1 files2.
  destruct (file_lists files1 files2) as [[only1 only2] common] eqn:Hl.
  by rewrite detect_changed_files_pairs.
Qed.

(** What [detect_changed_files] returns: the reference pairing and, on each
    side, the files that are in no pair. *)
Lemma detect_changed_files_result folder1 folder2 extra_files1 extra_files2 :
  ∃ changed rem1 rem2,
    detect_changed_files folder1 folder2 extra_files1 extra_files2 =
      Some (changed, rem1, rem2) ∧
    changed = rename_pairs (side_hash folder1) (side_hash folder2)
                (set_list (list_to_set extra_files1))
                (set_list (list_to_set extra_files2)) ∧
    (∀ x, x ∈ rem1 ↔ x ∈ extra_files1 ∧ x ∉ changed.*1) ∧
    (∀ x, x ∈ rem2 ↔ x ∈ extra_files2 ∧ x ∉ changed.*2).
Proof.
  do 3 eexists. split; [apply detect_changed_files_pairs|].
  split; [done|].
  split; intros x;
    by rewrite elem_of_set_list, elem_of_difference, !elem_of_list_to_set.
Qed.

(** C1, as the script has it. The candidates for a digest stand in the order
    in which the set of the first folder's extra files is iterated, and the
    extra files of the second folder are taken in the order in which their
    set is iterated (the sorted lists that [compare_folders] passes are made
    sets again): the renamed pairs are the reference pairing over these two
    orders. They come out in the order of the second-side files, and a
    paired first-side file is the first candidate left: every file with the
    same digest that is iterated before it is paired too. *)
Theorem renames_in_iteration_order folder1 folder2 extra_files1 extra_files2 :
  ∃ changed rem1 rem2,
    detect_changed_files folder1 folder2 extra_files1 extra_files2 =
      Some (changed, rem1, rem2) ∧
    changed = rename_pairs (side_hash folder1) (side_hash folder2)
                (set_list (list_to_set extra_files1))
                (set_list (list_to_set extra_files2)) ∧
    changed.*2 `sublist_of` set_list (list_to_set extra_files2) ∧
    ∀ a a' b,
      (a, b) ∈ changed →
      [a'; a] `sublist_of` set_list (list_to_set extra_files1) →
      side_hash folder1 a' = side_hash folder1 a →
      a' ∈ changed.*1.
Proof.
  destruct (detect_changed_files_result folder1 folder2 extra_files1 extra_files2)
    as (changed&rem1&rem2&Heq&->&_).
  do 3 eexists. split; [done|]. split; [done|]. split.
  - apply rename_pairs_snd_sublist.
  - intros a a' b Hin Hsub Hh.
    eapply rename_pairs_first; [apply set_list_NoDup|done..].
Qed.


(** C7, as the script has it. Of two extra files of the first folder with
    the digest of one extra file [y1] of the second folder, whichever is
    iterated first in the set of the first folder's extra files ([x1] here)
    is paired with [y1]; this is the only pair for that digest, and the
    other file remains. *)
Theorem duplicate_pairs_first_iterated folder1 folder2 extra_files1 extra_files2
    x1 x2 y1 d :
  [x1; x2] `sublist_of` set_list (list_to_set extra_files1) →
  side_hash folder1 x1 = Some d →
  side_hash folder1 x2 = Some d →
  (∀ a, a ∈ extra_files1 → side_hash folder1 a = Some d → a = x1 ∨ a = x2) →
  y1 ∈ extra_files2 →
  side_hash folder2 y1 = Some d →
  (∀ b, b ∈ extra_files2 → side_hash folder2 b = Some d → b = y1) →
  ∃ changed rem1 rem2,
    detect_changed_files folder1 folder2 extra_files1 extra_files2 =
      Some (changed, rem1, rem2) ∧
    NoDup changed ∧
    (x1, y1) ∈ changed ∧
    (∀ a b, (a, b) ∈ changed → side_hash folder1 a = Some d →
            (a, b) = (x1, y1)) ∧
    x2 ∈ rem1 ∧ (x1 ∉ rem1) ∧ (y1 ∉ rem2).
Proof.
  intros Hsub Hx1 Hx2 HuA Hy1 Hhy1 HuB.
  destruct (detect_changed_files_result folder1 folder2 extra_files1 extra_files2)
    as (changed&rem1&rem2&Heq&Hch&Hrem1&Hrem2).
  exists changed, rem1, rem2.
  destruct (rename_pairs_duplicate (side_hash folder1) (side_hash folder2)
              (set_list (list_to_set extra_files1))
              (set_list (list_to_set extra_files2)) x1 x2 y1 d)
    as (Hpair&Honly&Hother); try done.
  - apply set_list_NoDup.
  - apply set_list_NoDup.
  - intros a. rewrite elem_of_set_list, elem_of_list_to_set. apply HuA.
  - by rewrite elem_of_set_list, elem_of_list_to_set.
  - intros b. rewrite elem_of_set_list, elem_of_list_to_set. apply HuB.
  - rewrite <-Hch in Hpair, Honly, Hother.
    split_and!; try done.
    + rewrite Hch. apply rename_pairs_NoDup.
    + apply Hrem1. split; [|done].
      apply (elem_of_list_to_set (C:=gset path)), elem_of_set_list.
      eapply sublist_subseteq; [done|]. right. left.
    + rewrite Hrem1. intros [_ Hnin]. apply Hnin.
      apply list_elem_of_fmap. by exists (x1, y1).
    + rewrite Hrem2. intros [_ Hnin]. apply Hnin.
      apply list_elem_of_fmap. by exists (x1, y1).
Qed.

(** ** The comparison loop *)

#[local] Instance unreadable_dec folder1 folder2 file :
  Decision (unreadable folder1 folder2 file).
Proof. unfold unreadable. apply _. Defined.

#[local] Instance same_digest_dec folder1 folder2 file :
  Decision (same_digest folder1 folder2 file).
Proof.
  unfold same_digest.
  destruct (side_hash folder1 file) as [d1|], (side_hash folder2 file) as [d2|];
    [destruct (decide (d1 = d2)) as [->|]; [left; eauto|]|..];
    right; intros (d&?&?); congruence.
Defined.

#[local] Instance other_digest_dec folder1 folder2 file :
  Decision (other_digest folder1 folder2 file).
Proof.
  unfold other_digest.
  destruct (side_hash folder1 file) as [d1|], (side_hash folder2 file) as [d2|];
    [destruct (decide (d1 = d2)) as [->|]; [|left; eauto]|..];
    right; intros (?&?&?&?&?); congruence.
Defined.

(** Each file has exactly one of the three outcomes. *)
Lemma outcome_cases folder1 folder2 file :
  (unreadable folder1 folder2 file ∧ ¬ same_digest folder1 folder2 file ∧
     ¬ other_digest folder1 folder2 file) ∨
  (¬ unreadable folder1 folder2 file ∧ same_digest folder1 folder2 file ∧
     ¬ other_digest folder1 folder2 file) ∨
  (¬ unreadable folder1 folder2 file ∧ ¬ same_digest folder1 folder2 file ∧
     other_digest folder1 folder2 file).
Proof.
  unfold unreadable, same_digest, other_digest.
  destruct (side_hash folder1 file) as [d1|], (side_hash folder2 file) as [d2|];
    [destruct (decide (d1 = d2)) as [->|];
       [right; left|right; right]|left..];
    split_and!;
    try (intros [?|?]; done);
    try (intros (?&?&?); congruence);
    try (intros (?&?&?&?&?); congruence);
    eauto 7.
Qed.

Lemma compare_file_outcome folder1 folder2 st file :
  compare_file folder1 folder2 st file =
  CompareState
    (cs_different st ++ filter (other_digest folder1 folder2) [file])
    (cs_identical st ++ filter (same_digest folder1 folder2) [file])
    (cs_failed st ++ filter (unreadable folder1 folder2) [file])
    (cs_total st + 1).
Proof.
  unfold Gama3.compare_file. fold (side_hash folder1 file) (side_hash folder2 file).
  rewrite !filter_cons, !filter_nil.
  destruct (outcome_cases folder1 folder2 file)
    as [(Hu&?&?)|[(?&Hs&?)|(?&?&Ho)]];
    repeat (first [rewrite decide_True by done|rewrite decide_False by done]);
    rewrite ?app_nil_r.
  - destruct Hu as [E|E].
    + by rewrite E.
    + rewrite E. by destruct (side_hash folder1 file).
  - destruct Hs as (d&E1&E2). rewrite E1, E2. by case_decide.
  - destruct Ho as (d1&d2&E1&E2&?). rewrite E1, E2. by case_decide.
Qed.

Lemma compare_loop_outcome folder1 folder2 files st :
  foldl (compare_file folder1 folder2) st files =
  CompareState
    (cs_different st ++ filter (other_digest folder1 folder2) files)
    (cs_identical st ++ filter (same_digest folder1 folder2) files)
    (cs_failed st ++ filter (unreadable folder1 folder2) files)
    (cs_total st + length files).
Proof.
  revert st. induction files as [|file files IH]; intros st; simpl.
  - destruct st. simpl. by rewrite !app_nil_r, Nat.add_0_r.
  - rewrite IH, compare_file_outcome. simpl.
    rewrite <-!(assoc_L (++)), <-!filter_app. simpl.
    f_equal. lia.
Qed.

Lemma compare_common_outcome folder1 folder2 files :
  compare_common folder1 folder2 files =
  CompareState (filter (other_digest folder1 folder2) files)
               (filter (same_digest folder1 folder2) files)
               (filter (unreadable folder1 folder2) files)
               (length files).
Proof. unfold Gama3.compare_common. by rewrite compare_loop_outcome. Qed.

Lemma outcome_lengths folder1 folder2 files :
  length (filter (same_digest folder1 folder2) files) +
  length (filter (other_digest folder1 folder2) files) +
  length (filter (unreadable folder1 folder2) files) = length files.
Proof.
  induction files as [|file files IH]; [done|].
  rewrite !filter_cons.
  destruct (outcome_cases folder1 folder2 file) as [(?&?&?)|[(?&?&?)|(?&?&?)]];
    repeat (first [rewrite decide_True by done|rewrite decide_False by done]); simpl; lia.
Qed.

Lemma outcome_Permutation folder1 folder2 files :
  filter (same_digest folder1 folder2) files ++
  filter (other_digest folder1 folder2) files ++
  filter (unreadable folder1 folder2) files ≡ₚ files.
Proof.
  induction files as [|file files IH]; [done|].
  rewrite !filter_cons.
  destruct (outcome_cases folder1 folder2 file) as [(?&?&?)|[(?&?&?)|(?&?&?)]];
    repeat (first [rewrite decide_True by done|rewrite decide_False by done]); simpl.
  - rewrite <-(Permutation_middle _ (filter _ files) file), <-Permutation_middle.
    by constructor.
  - by constructor.
  - rewrite <-Permutation_middle. by constructor.
Qed.

(** C2. [compare_folders] always returns its report, whatever files
    cannot be read, and a file of both folders is in exactly one of the
    three lists: in the failed comparisons when hashing fails on either
    side, in the identical files when both digests are there and equal, in
    the different files when both are there and differ. *)
Theorem common_files_classified folder1 folder2 :
  ∃ r, compare_folders folder1 folder2 = Some r ∧
    ∀ file, file ∈ get_all_files folder1 → file ∈ get_all_files folder2 →
      (file ∈ failed_comparisons r ↔ unreadable folder1 folder2 file) ∧
      (file ∈ identical_files r ↔ same_digest folder1 folder2 file) ∧
      (file ∈ different_files r ↔ other_digest folder1 folder2 file) ∧
      ((file ∈ failed_comparisons r ∧ (file ∉ identical_files r) ∧
          (file ∉ different_files r)) ∨
       ((file ∉ failed_comparisons r) ∧ file ∈ identical_files r ∧
          (file ∉ different_files r)) ∨
       ((file ∉ failed_comparisons r) ∧ (file ∉ identical_files r) ∧
          file ∈ different_files r)).
Proof.
  eexists. split; [apply compare_folders_unfold|].
  intros file Hf1 Hf2. simpl. rewrite compare_common_outcome. simpl.
  assert (file ∈ sorted (elements (get_all_files folder1 ∩ get_all_files folder2)))
    as Hin by (by rewrite elem_of_sorted_elements, elem_of_intersection).
  rewrite !list_elem_of_filter.
  pose proof (outcome_cases folder1 folder2 file). tauto.
Qed.

(** C10. The number of files checked is the number of files of both
    folders and the sum of the three counts of the summary; the three
    lists together hold each file of both folders once. *)
Theorem summary_counts_consistent folder1 folder2 :
  ∃ r, compare_folders folder1 folder2 = Some r ∧
    total_checked r = size (get_all_files folder1 ∩ get_all_files folder2) ∧
    total_checked r =
      length (identical_files r) + length (different_files r) +
      length (failed_comparisons r) ∧
    identical_files r ++ different_files r ++ failed_comparisons r ≡ₚ
      elements (get_all_files folder1 ∩ get_all_files folder2).
Proof.
  eexists. split; [apply compare_folders_unfold|].
  simpl. rewrite compare_common_outcome. simpl.
  split_and!.
  - by rewrite sorted_Permutation.
  - by rewrite outcome_lengths.
  - by rewrite outcome_Permutation, sorted_Permutation.
Qed.

(** ** The whole report *)

Lemma compare_folders_result folder1 folder2 :
  let files1 := get_all_files folder1 in
  let files2 := get_all_files folder2 in
  let common_files := sorted (elements (files1 ∩ files2)) in
  ∃ r, compare_folders folder1 folder2 = Some r ∧
    changed_files r =
      rename_pairs (side_hash folder1) (side_hash folder2)
                   (set_list (files1 ∖ files2)) (set_list (files2 ∖ files1)) ∧
    only_in_folder1 r =
      set_list ((files1 ∖ files2) ∖ list_to_set (changed_files r).*1) ∧
    only_in_folder2 r =
      set_list ((files2 ∖ files1) ∖ list_to_set (changed_files r).*2) ∧
    different_files r = filter (other_digest folder1 folder2) common_files ∧
    identical_files r = filter (same_digest folder1 folder2) common_files ∧
    failed_comparisons r = filter (unreadable folder1 folder2) common_files ∧
    total_checked r = length common_files.
Proof.
  intros files1 files2 common_files.
  eexists. split; [apply compare_folders_unfold|].
  fold files1 files2. unfold file_lists. simpl. fold common_files.
  rewrite !list_to_set_sorted_elements, compare_common_outcome. done.
Qed.

Lemma not_listable_no_files folder :
  not_listable folder → get_all_files folder = ∅.
Proof.
  unfold not_listable, Gama3.get_all_files, os_walk.
  by destruct (fs_top fs folder) as [[|[es|]]|].
Qed.

Lemma set_list_empty : set_list ∅ = [].
Proof.
  apply Permutation_nil_r. by rewrite set_list_perm, elements_empty.
Qed.

(** C4, as the script has it. A top folder that cannot be listed is an empty
    folder to [compare_folders]: [os.walk] yields nothing for it and nothing
    is raised. The report is complete: no file is checked, no list of
    compared files and no renamed pair has an entry, and every file of each
    folder is reported as being in that folder only. *)
Theorem missing_root_compared folder1 folder2 :
  not_listable folder1 ∨ not_listable folder2 →
  ∃ r, compare_folders folder1 folder2 = Some r ∧
    total_checked r = 0 ∧
    identical_files r = [] ∧
    different_files r = [] ∧
    failed_comparisons r = [] ∧
    changed_files r = [] ∧
    only_in_folder1 r ≡ₚ elements (get_all_files folder1) ∧
    only_in_folder2 r ≡ₚ elements (get_all_files folder2) ∧
    (not_listable folder1 → get_all_files folder1 = ∅) ∧
    (not_listable folder2 → get_all_files folder2 = ∅).
Proof.
  intros Hmiss.
  destruct (compare_folders_result folder1 folder2)
    as (r&Heq&Hch&Ho1&Ho2&Hd&Hi&Hf&Ht).
  exists r. split; [done|].
  assert (get_all_files folder1 ∩ get_all_files folder2 = ∅ ∧
          changed_files r = [] ∧
          get_all_files folder1 ∖ get_all_files folder2 = get_all_files folder1 ∧
          get_all_files folder2 ∖ get_all_files folder1 = get_all_files folder2)
    as (Hnone&Hnil&Hd1&Hd2).
  { destruct Hmiss as [Hm|Hm]; apply not_listable_no_files in Hm;
      rewrite Hm in *; rewrite Hch.
    - rewrite (left_absorb_L ∅ (∩)), empty_difference_L, difference_empty_L.
      by rewrite set_list_empty, rename_pairs_nil_l.
    - rewrite (right_absorb_L ∅ (∩)), empty_difference_L, difference_empty_L.
      by rewrite set_list_empty. }
  rewrite Hnone, elements_empty in *.
  rewrite Hnil, Hd1, Hd2 in *. simpl in *.
  rewrite difference_empty_L in Ho1, Ho2.
  split_and!; try done.
  - by rewrite Ho1, set_list_perm.
  - by rewrite Ho2, set_list_perm.
  - apply not_listable_no_files.
  - apply not_listable_no_files.
Qed.

(** C5, as the script has it. An extra file that cannot be hashed is left
    out of the candidates, so it is in no renamed pair, and it stays in the
    list of the files that are in its folder only. It is not among the
    failed comparisons: those are files of both folders. *)
Theorem unreadable_extra_kept folder1 folder2 :
  ∃ r, compare_folders folder1 folder2 = Some r ∧
    (∀ x, x ∈ get_all_files folder1 → x ∉ get_all_files folder2 →
          side_hash folder1 x = None →
          x ∈ only_in_folder1 r ∧ (x ∉ failed_comparisons r) ∧
          (x ∉ (changed_files r).*1) ∧ (x ∉ (changed_files r).*2)) ∧
    (∀ x, x ∈ get_all_files folder2 → x ∉ get_all_files folder1 →
          side_hash folder2 x = None →
          x ∈ only_in_folder2 r ∧ (x ∉ failed_comparisons r) ∧
          (x ∉ (changed_files r).*1) ∧ (x ∉ (changed_files r).*2)) ∧
    (∀ x, x ∈ failed_comparisons r →
          x ∈ get_all_files folder1 ∧ x ∈ get_all_files folder2).
Proof.
  destruct (compare_folders_result folder1 folder2)
    as (r&Heq&Hch&Ho1&Ho2&Hd&Hi&Hf&Ht).
  exists r. split; [done|].
  assert (∀ a b, (a, b) ∈ changed_files r →
            (a ∈ get_all_files folder1 ∧ (a ∉ get_all_files folder2) ∧
             is_Some (side_hash folder1 a)) ∧
            (b ∈ get_all_files folder2 ∧ (b ∉ get_all_files folder1) ∧
             is_Some (side_hash folder2 b))) as Hpairs.
  { intros a b. rewrite Hch. intros (Ha&Hb&h&Hh1&Hh2)%rename_pairs_sound.
    rewrite elem_of_set_list, elem_of_difference in Ha, Hb.
    destruct Ha, Hb. rewrite Hh1, Hh2. by split_and!. }
  assert (∀ x, x ∈ failed_comparisons r →
            x ∈ get_all_files folder1 ∧ x ∈ get_all_files folder2) as Hfailed.
  { intros x. rewrite Hf. intros [_ Hx]%list_elem_of_filter.
    by rewrite elem_of_sorted_elements, elem_of_intersection in Hx. }
  assert (∀ x, side_hash folder1 x = None → x ∉ (changed_files r).*1) as Hno1.
  { intros x Hx ([a b]&->&Hin)%list_elem_of_fmap.
    apply Hpairs in Hin as [(_&_&[h Hh]) _]. simpl in *. congruence. }
  assert (∀ x, side_hash folder2 x = None → x ∉ (changed_files r).*2) as Hno2.
  { intros x Hx ([a b]&->&Hin)%list_elem_of_fmap.
    apply Hpairs in Hin as [_ (_&_&[h Hh])]. simpl in *. congruence. }
  split_and!; [| |done].
  - intros x Hx1 Hx2 Hx. split_and!.
    + rewrite Ho1, elem_of_set_list, !elem_of_difference, elem_of_list_to_set.
      auto.
    + intros [_ ?]%Hfailed. done.
    + auto.
    + intros ([a b]&->&Hin)%list_elem_of_fmap.
      apply Hpairs in Hin as [_ (?&_)]. done.
  - intros x Hx2 Hx1 Hx. split_and!.
    + rewrite Ho2, elem_of_set_list, !elem_of_difference, elem_of_list_to_set.
      auto.
    + intros [? _]%Hfailed. done.
    + intros ([a b]&->&Hin)%list_elem_of_fmap.
      apply Hpairs in Hin as [(?&_) _]. done.
    + auto.
Qed.

End gama_3_facts.

(** ** beta_version_3.py: folders *)

Section beta_version_3_facts.
Context {hlib : HashLib}.
Variable fs : filesystem.

Local Abbreviation get_all_files_and_folders := (Beta3.get_all_files_and_folders fs).
Local Abbreviation beta_hash := (Beta3.get_file_hash fs).
Local Abbreviation beta_compare_common := (Beta3.compare_common fs).
Local Abbreviation beta_compare_folders := (Beta3.compare_folders fs).

(** The loop ends normally when every file can be hashed on both sides. *)
Lemma beta_compare_common_returns folder1 folder2 files different identical :
  (∀ file, file ∈ files →
     is_Some (beta_hash (os_path_join folder1 file)) ∧
     is_Some (beta_hash (os_path_join folder2 file))) →
  is_Some (beta_compare_common folder1 folder2 files different identical).
Proof.
  revert different identical.
  induction files as [|file files IH]; intros different identical Hall; simpl.
  - by eexists.
  - destruct (Hall file) as [[h1 ->] [h2 ->]]; [left|]. simpl.
    case_decide; apply IH; intros f Hf; apply Hall; by right.
Qed.

(** What is enumerated depends on the directory trees only. *)
Lemma get_all_files_and_folders_trees open' folder :
  Beta3.get_all_files_and_folders (FileSystem (fs_top fs) open') folder =
  get_all_files_and_folders folder.
Proof. done. Qed.

Lemma beta_compare_folders_folders folder1 folder2 r :
  beta_compare_folders folder1 folder2 = Some r →
  Beta3.only_folders_in_folder1 r =
    sorted (elements ((get_all_files_and_folders folder1).2 ∖
                      (get_all_files_and_folders folder2).2)) ∧
  Beta3.only_folders_in_folder2 r =
    sorted (elements ((get_all_files_and_folders folder2).2 ∖
                      (get_all_files_and_folders folder1).2)).
Proof.
  unfold Beta3.compare_folders.
  destruct (get_all_files_and_folders folder1) as [files1 folders1].
  destruct (get_all_files_and_folders folder2) as [files2 folders2].
  unfold file_lists, Beta3.folder_lists. simpl.
  destruct (beta_compare_common _ _ _ _ _) as [[different identical]|];
    simpl; intros; by simplify_eq.
Qed.

End beta_version_3_facts.

(** C9. In [beta_version_3.py] the folders that are in one folder only are
    the two set differences of the enumerated folder paths, sorted: a folder
    path is listed exactly when it is in the one set and not in the other.
    No folder is hashed: with the same directory trees the two lists are the
    same whatever the files hold. The run reaches its report when every file
    of both folders can be hashed. *)
Theorem folders_by_presence {hlib : HashLib} (fs : filesystem) folder1 folder2 :
  let folders1 := (Beta3.get_all_files_and_folders fs folder1).2 in
  let folders2 := (Beta3.get_all_files_and_folders fs folder2).2 in
  let files1 := (Beta3.get_all_files_and_folders fs folder1).1 in
  let files2 := (Beta3.get_all_files_and_folders fs folder2).1 in
  (∀ r, Beta3.compare_folders fs folder1 folder2 = Some r →
     Beta3.only_folders_in_folder1 r = sorted (elements (folders1 ∖ folders2)) ∧
     Beta3.only_folders_in_folder2 r = sorted (elements (folders2 ∖ folders1)) ∧
     (∀ x, x ∈ Beta3.only_folders_in_folder1 r ↔ x ∈ folders1 ∧ x ∉ folders2) ∧
     (∀ x, x ∈ Beta3.only_folders_in_folder2 r ↔ x ∈ folders2 ∧ x ∉ folders1)) ∧
  (∀ open' r r',
     Beta3.compare_folders fs folder1 folder2 = Some r →
     Beta3.compare_folders (FileSystem (fs_top fs) open') folder1 folder2 = Some r' →
     Beta3.only_folders_in_folder1 r' = Beta3.only_folders_in_folder1 r ∧
     Beta3.only_folders_in_folder2 r' = Beta3.only_folders_in_folder2 r) ∧
  ((∀ file, file ∈ files1 → file ∈ files2 →
      is_Some (Beta3.get_file_hash fs (os_path_join folder1 file)) ∧
      is_Some (Beta3.get_file_hash fs (os_path_join folder2 file))) →
   is_Some (Beta3.compare_folders fs folder1 folder2)).
Proof.
  intros folders1 folders2 files1 files2. split_and!.
  - intros r [Hr1 Hr2]%beta_compare_folders_folders.
    fold folders1 folders2 in Hr1, Hr2. rewrite Hr1, Hr2.
    split_and!; [done|done| |];
      intros x; by rewrite elem_of_sorted_elements, elem_of_difference.
  - intros open' r r' [Hr1 Hr2]%beta_compare_folders_folders
                      [Hr1' Hr2']%beta_compare_folders_folders.
    rewrite !get_all_files_and_folders_trees in Hr1', Hr2'.
    by rewrite Hr1, Hr2, Hr1', Hr2'.
  - intros Hall. unfold Beta3.compare_folders.
    subst files1 files2.
    destruct (Beta3.get_all_files_and_folders fs folder1) as [files1 f1].
    destruct (Beta3.get_all_files_and_folders fs folder2) as [files2 f2].
    unfold file_lists, Beta3.folder_lists. simpl in *.
    destruct (beta_compare_common_returns fs folder1 folder2
                (sorted (elements (files1 ∩ files2))) [] []) as [[d i] ->].
    + intros file [??]%elem_of_sorted_elements%elem_of_intersection. auto.
    + by eexists.
Qed.

(** * The scripts on the example trees *)

(** The digest of the content that the three files of [fs_duplicates]
    share. *)
Definition data_digest : string :=
  "3a6eb0790f39ac87c94f3856b2dd2c5d110e6811602261a9a923d3bb23adc8b7".

(** The report of [compare_folders] on the renamed file, the file that did
    not move and the edited file. *)
Example compare_folders_renamed :
  Gama3.compare_folders (pyset:=ascending) fs_renamed "a" "b" =
  Some (Gama3.Report [] [] ["edit.txt"] ["same.txt"] []
                     [("foo.txt", "bar.txt")] 2).
Proof. vm_compute. reflexivity. Qed.

(** With sets that iterate in ascending order the duplicate [x1] is paired;
    with sets that iterate in descending order it is [x2]. *)
Example compare_folders_duplicates_ascending :
  Gama3.compare_folders (pyset:=ascending) fs_duplicates "a" "b" =
  Some (Gama3.Report ["x2"] [] [] [] [] [("x1", "y1")] 0).
Proof. vm_compute. reflexivity. Qed.

Example compare_folders_duplicates_descending :
  Gama3.compare_folders (pyset:=descending) fs_duplicates "a" "b" =
  Some (Gama3.Report ["x1"] [] [] [] [] [("x2", "y1")] 0).
Proof. vm_compute. reflexivity. Qed.

(** The two files of [a] that cannot be hashed stay in the list of the files
    only in [a]; no comparison has failed. *)
Example compare_folders_unreadable :
  Gama3.compare_folders (pyset:=ascending) fs_unreadable "a" "b" =
  Some (Gama3.Report ["broken.bin"; "locked.bin"] ["sub/new.txt"]
                     [] ["ok.txt"] [] [] 1).
Proof. vm_compute. reflexivity. Qed.

(** A first folder that does not exist. *)
Example compare_folders_missing :
  Gama3.compare_folders (pyset:=ascending) fs_renamed "nowhere" "b" =
  Some (Gama3.Report [] ["bar.txt"; "edit.txt"; "same.txt"] [] [] [] [] 0).
Proof. vm_compute. reflexivity. Qed.

(** [beta_version_3.py] on [fs_unreadable]: the common file can be hashed,
    the subfolder of [b] is reported. *)
Example beta_compare_folders_unreadable :
  Beta3.compare_folders fs_unreadable "a" "b" =
  Some (Beta3.Report ["broken.bin"; "locked.bin"] ["sub/new.txt"]
                     [] ["sub"] [] ["ok.txt"]).
Proof. vm_compute. reflexivity. Qed.

(** * Counterexamples to the statements of the specification *)

(** The sorted order is not the order of the candidates: with sets that
    iterate in descending order, [y1] is paired with [x2], not with the
    lowest-sorted [x1]. *)
Lemma renames_in_sorted_order_fails :
  ¬ renames_in_sorted_order (pyset:=descending) fs_duplicates "a" "b"
      ["x1"; "x2"] ["y1"].
Proof.
  intros (rem1&rem2&Heq). vm_compute in Heq. discriminate Heq.
Qed.

Lemma duplicate_pairs_lowest_fails :
  ¬ duplicate_pairs_lowest (pyset:=descending) fs_duplicates "a" "b"
      ["x1"; "x2"] ["y1"] "x1" "x2" "y1" data_digest.
Proof.
  intros Hc.
  destruct Hc as (changed&rem1&rem2&Heq&Hin&_&_).
  - left.
  - right. left.
  - discriminate.
  - vm_compute. reflexivity.
  - vm_compute. reflexivity.
  - vm_compute. reflexivity.
  - intros a [->|[->|Ha]%elem_of_cons]%elem_of_cons _; [by left|by right|by inv Ha].
  - left.
  - vm_compute. reflexivity.
  - intros b [->|Hb]%elem_of_cons _; [done|by inv Hb].
  - vm_compute in Heq. injection Heq as <- _ _.
    apply list_elem_of_singleton in Hin. discriminate Hin.
Qed.


(** [locked.bin] is in folder [a] only and cannot be opened; it is not among
    the failed comparisons. *)
Lemma unreadable_extra_reported_fails :
  ¬ unreadable_extra_reported (pyset:=ascending) fs_unreadable "a" "b".
Proof.
  intros Hc.
  destruct (Hc (Gama3.Report ["broken.bin"; "locked.bin"] ["sub/new.txt"]
                             [] ["ok.txt"] [] [] 1) "locked.bin")
    as (Hin&_).
  - vm_compute. reflexivity.
  - left. split; [|vm_compute; reflexivity].
    apply (bool_decide_unpack _). vm_compute. exact I.
  - simpl in Hin. by inv Hin.
Qed.

(** The first folder does not exist and the comparison returns a report. *)
Lemma missing_root_fails_fails :
  ¬ missing_root_fails (pyset:=ascending) fs_renamed "nowhere" "b".
Proof.
  intros Hc. unfold missing_root_fails in Hc.
  assert (not_listable fs_renamed "nowhere") as Hm by (vm_compute; exact I).
  specialize (Hc (or_introl Hm)). vm_compute in Hc. discriminate Hc.
Qed.

(** * Instances of the theorems *)

(** With sets that iterate in descending order [x2] comes before [x1]: it is
    [x2] that is paired with [y1], and [x1] remains. *)
Lemma duplicate_pairs_first_iterated_witness :
  ∃ changed rem1 rem2,
    Gama3.detect_changed_files (pyset:=descending) fs_duplicates "a" "b"
      ["x1"; "x2"] ["y1"] = Some (changed, rem1, rem2) ∧
    ("x2", "y1") ∈ changed ∧ "x1" ∈ rem1.
Proof.
  destruct (duplicate_pairs_first_iterated (pyset:=descending) fs_duplicates
              "a" "b" ["x1"; "x2"] ["y1"] "x2" "x1" "y1" data_digest)
    as (changed&rem1&rem2&Heq&_&Hin&_&Hrem&_).
  - vm_compute. reflexivity.
  - vm_compute. reflexivity.
  - vm_compute. reflexivity.
  - intros a [->|[->|Ha]%elem_of_cons]%elem_of_cons _; [by right|by left|by inv Ha].
  - left.
  - vm_compute. reflexivity.
  - intros b [->|Hb]%elem_of_cons _; [done|by inv Hb].
  - exists changed, rem1, rem2. exact (conj Heq (conj Hin Hrem)).
Defined.

Lemma missing_root_compared_witness :
  ∃ r, Gama3.compare_folders (pyset:=ascending) fs_renamed "nowhere" "b" = Some r ∧
       Gama3.total_checked r = 0 ∧ Gama3.changed_files r = [] ∧
       Gama3.get_all_files fs_renamed "nowhere" = ∅.
Proof.
  assert (not_listable fs_renamed "nowhere") as Hm by (vm_compute; exact I).
  destruct (missing_root_compared (pyset:=ascending) fs_renamed "nowhere" "b"
              (or_introl Hm))
    as (r&Heq&Ht&_&_&_&Hch&_&_&Hnone&_).
  exists r. exact (conj Heq (conj Ht (conj Hch (Hnone Hm)))).
Defined.

(** * More about the two scripts *)

#[local] Existing Instances unreadable_dec same_digest_dec other_digest_dec.

(** ** Read failures in the chunk loop *)

Section chunk_loop_failures.
Context {hlib : HashLib}.

Lemma read_calls_nil : read_calls [] = 1.
Proof. reflexivity. Qed.

Lemma read_calls_step data :
  data ≠ [] → read_calls data = S (read_calls (drop 4096 data)).
Proof.
  intros Hne. unfold read_calls. rewrite length_drop.
  assert (0 < length data) as Hpos by (destruct data; [done|simpl; lia]).
  generalize dependent (length data). intros n Hn.
  destruct (decide (n ≤ 4096)) as [Hle|Hgt].
  - replace (n - 4096) with 0 by lia.
    rewrite <-(Nat.div_unique (n + 4095) 4096 1 (n - 1)) by lia.
    rewrite <-(Nat.div_unique (0 + 4095) 4096 0 4095) by lia. lia.
  - replace (n + 4095) with (n - 4096 + 4095 + 1 * 4096) by lia.
    rewrite Nat.div_add by lia. lia.
Qed.

(** On a device that fails after [k] reads the loop ends normally exactly
    when [k] reads take it to the end of the file. *)
Lemma read_chunks_budget data k st :
  read_chunks (Handle data (Some k)) st =
  if decide (read_calls data ≤ k) then Some (update st data) else None.
Proof.
  remember (length data) as n eqn:Hn.
  revert data k st Hn. induction (lt_wf n) as [n _ IH]. intros data k st ->.
  rewrite read_chunks_step. unfold f_read. simpl.
  destruct k as [|k].
  { rewrite decide_False; [done|]. unfold read_calls. lia. }
  simpl. destruct (decide (take 4096 data = [])) as [Hnil|Hne].
  - assert (data = []) as -> by (by destruct data).
    rewrite read_calls_nil, decide_True by lia. by rewrite update_nil.
  - assert (data ≠ []) as Hd by (by intros ->).
    assert (length (drop 4096 data) < length data) as Hlt.
    { destruct data; [done|]. rewrite length_drop. simpl. lia. }
    rewrite (IH _ Hlt (drop 4096 data) _ _ eq_refl).
    rewrite (read_calls_step data Hd).
    rewrite update_update, take_drop.
    destruct (decide (read_calls (drop 4096 data) ≤ k));
      [rewrite decide_True by lia|rewrite decide_False by lia]; done.
Qed.

Lemma hash_handle_budget f :
  hash_handle f =
  if decide (reads_suffice f) then Some (sha256_hex (h_data f)) else None.
Proof.
  destruct f as [data [k|]]; unfold hash_handle, reads_suffice; simpl.
  - rewrite read_chunks_budget. by destruct (decide _).
  - by rewrite read_chunks_all.
Qed.

(** X1. [get_file_hash] gives the digest of the whole file or nothing: it
    returns [None] when the file cannot be opened or a read raises before
    the end of the file has been seen (the last read, the one that returns
    no bytes, included), and otherwise the one-pass digest of the whole
    content. A digest of the part read so far is never returned. The
    function of [beta_version_3.py] computes the same, its [None] being the
    exception that leaves it. *)
Theorem get_file_hash_all_or_nothing (fs : filesystem) filepath :
  Gama3.get_file_hash fs filepath =
    match fs_open fs filepath with
    | Some f =>
        if decide (reads_suffice f) then Some (sha256_hex (h_data f)) else None
    | None => None
    end ∧
  (∀ d, Gama3.get_file_hash fs filepath = Some d →
        ∃ f, fs_open fs filepath = Some f ∧ d = sha256_hex (h_data f)) ∧
  Beta3.get_file_hash fs filepath = Gama3.get_file_hash fs filepath.
Proof.
  unfold Gama3.get_file_hash, Beta3.get_file_hash.
  destruct (fs_open fs filepath) as [f|]; [|done].
  rewrite hash_handle_budget. split_and!; [done| |done].
  intros d. destruct (decide _); [|done]. intros [= <-]. eauto.
Qed.

End chunk_loop_failures.

(** A file of 5000 bytes takes three reads; a device that fails at the
    third one leaves no digest although all bytes have been read. *)
Example get_file_hash_last_read_fails :
  Gama3.get_file_hash
    (fs_of [] [("a/f.bin", Handle (replicate 5000 Byte.x61) (Some 2))])
    "a/f.bin" = None.
Proof. vm_compute. reflexivity. Qed.

(** ** The files and folders that are enumerated *)

(** Induction on a directory tree. *)
Lemma node_tree_ind (P : node → Prop) :
  P File → P (Dir None) →
  (∀ es, Forall (λ e, P e.2) es → P (Dir (Some es))) →
  ∀ n, P n.
Proof.
  intros HF HN HS. fix IH 1. intros [|[es|]]; [done|apply HS|done].
  induction es as [|[s n] es IHes]; constructor; [apply IH|apply IHes].
Qed.

Lemma elem_of_flat_map {A B} (f : A → list B) l x :
  x ∈ flat_map f l ↔ ∃ y, y ∈ l ∧ x ∈ f y.
Proof.
  induction l as [|y l IH]; simpl.
  - split; [by inv 1|]. by intros (?&?%elem_of_nil&_).
  - rewrite elem_of_app, IH. split.
    + intros [?|(z&?&?)]; [exists y; split; [left|done]|exists z; split; [by right|done]].
    + intros (z&[->|?]%elem_of_cons&?); [by left|right; eauto].
Qed.

Lemma elem_of_file_names es name : name ∈ file_names es ↔ (name, File) ∈ es.
Proof.
  unfold file_names. rewrite list_elem_of_fmap. split.
  - intros ([s n]&->&[Hn Hin]%list_elem_of_filter). by destruct n.
  - intros Hin. exists (name, File). split; [done|]. by apply list_elem_of_filter.
Qed.

Lemma elem_of_dir_names es name :
  name ∈ dir_names es ↔ ∃ l, (name, Dir l) ∈ es.
Proof.
  unfold dir_names. rewrite list_elem_of_fmap. split.
  - intros ([s n]&->&[Hn Hin]%list_elem_of_filter). destruct n; [done|eauto].
  - intros [l Hin]. exists (name, Dir l). split; [done|].
    by apply list_elem_of_filter.
Qed.

Lemma reaches_is_dir n root es : reaches n root es → is_dir n = true.
Proof. by destruct 1. Qed.

(** The triples of [os.walk]: one for each directory that can be listed and
    is reached through directories that can be listed. *)
Lemma elem_of_walk n root0 r dirs files :
  (r, dirs, files) ∈ walk root0 n ↔
  ∃ root es, reaches n root es ∧ r = root0 ++ root ∧
             dirs = dir_names es ∧ files = file_names es.
Proof.
  revert root0. induction n as [| |es IH] using node_tree_ind; intros root0; simpl.
  - split; [by inv 1|]. intros (?&?&Hr&_). inv Hr.
  - split; [by inv 1|]. intros (?&?&Hr&_). inv Hr.
  - rewrite elem_of_cons, elem_of_flat_map. split.
    + intros [[= -> -> ->]|([d n]&Hin&Hw)].
      * exists [], es. rewrite app_nil_r. split_and!; [constructor|done..].
      * simpl in Hw. destruct (is_dir n); [|by inv Hw].
        rewrite Forall_forall in IH. apply (IH _ Hin) in Hw as (root&es'&?&->&->&->).
        exists (d :: root), es'. rewrite <-(assoc_L (++)).
        split_and!; [by econstructor|done..].
    + intros (root&es'&Hr&->&->&->). inv Hr.
      * left. by rewrite app_nil_r.
      * right. eexists (_, _). split; [done|]. simpl.
        erewrite reaches_is_dir by done.
        rewrite Forall_forall in IH.
        lazymatch goal with H : (_, ?n) ∈ es |- _ => apply (IH _ H) end.
        eexists _, _. rewrite <-(assoc_L (++)). by split_and!.
Qed.

Lemma string_app_assoc (a b c : string) : (a +:+ b) +:+ c = a +:+ b +:+ c.
Proof.
  induction a as [|x a IH]; [done|].
  change (String x ((a +:+ b) +:+ c) = String x (a +:+ b +:+ c)). by rewrite IH.
Qed.

Lemma concat_cons_snoc sep x l y :
  String.concat sep (x :: l ++ [y]) = x +:+ sep +:+ String.concat sep (l ++ [y]).
Proof. by destruct l. Qed.

(** A path some levels down is the path of its folder, a separator and the
    name. *)
Lemma relpath_join_snoc root d name :
  relpath_join (root ++ [d]) name = relpath_join root d +:+ "/" +:+ name.
Proof.
  unfold relpath_join. induction root as [|x root IH]; simpl app.
  - done.
  - rewrite (concat_cons_snoc "/" x (root ++ [d]) name), IH.
    rewrite (concat_cons_snoc "/" x root d).
    by rewrite !string_app_assoc.
Qed.

Lemma reaches_snoc_inv n root d es :
  reaches n (root ++ [d]) es →
  ∃ es', reaches n root es' ∧ (d, Dir (Some es)) ∈ es'.
Proof.
  remember (root ++ [d]) as r eqn:Hr. intros H. revert root Hr.
  induction H as [es|es0 d0 n root0 es' Hin Hr IH]; intros root Heq.
  - by destruct root.
  - destruct root as [|x root]; simplify_eq/=.
    + inv Hr. exists es0. split; [constructor|done].
    + destruct (IH root eq_refl) as (es1&?&?). exists es1.
      split; [by econstructor|done].
Qed.

Section enumeration_facts.
Variable fs : filesystem.

Lemma elem_of_get_all_files folder p :
  p ∈ Gama3.get_all_files fs folder ↔
  ∃ top root es name,
    fs_top fs folder = Some top ∧ reaches top root es ∧ (name, File) ∈ es ∧
    p = relpath_join root name.
Proof.
  unfold Gama3.get_all_files, os_walk. rewrite elem_of_list_to_set.
  rewrite elem_of_flat_map. split.
  - intros ([[r dirs] files]&Hin&Hp).
    destruct (fs_top fs folder) as [top|]; [|by inv Hin].
    apply elem_of_walk in Hin as (root&es&Hr&->&->&->).
    apply list_elem_of_fmap in Hp as (name&->&Hn%elem_of_file_names).
    by exists top, root, es, name.
  - intros (top&root&es&name&->&Hr&Hn&->).
    exists (root, dir_names es, file_names es). split.
    + apply elem_of_walk. by exists root, es.
    + apply list_elem_of_fmap. exists name. by rewrite elem_of_file_names.
Qed.

Lemma elem_of_folders folder p :
  p ∈ (Beta3.get_all_files_and_folders fs folder).2 ↔
  ∃ top root es name l,
    fs_top fs folder = Some top ∧ reaches top root es ∧ (name, Dir l) ∈ es ∧
    p = relpath_join root name.
Proof.
  unfold Beta3.get_all_files_and_folders, os_walk. simpl.
  rewrite elem_of_list_to_set, elem_of_flat_map. split.
  - intros ([[r dirs] files]&Hin&Hp).
    destruct (fs_top fs folder) as [top|]; [|by inv Hin].
    apply elem_of_walk in Hin as (root&es&Hr&->&->&->).
    apply list_elem_of_fmap in Hp as (name&->&[l Hn]%elem_of_dir_names).
    by exists top, root, es, name, l.
  - intros (top&root&es&name&l&->&Hr&Hn&->).
    exists (root, dir_names es, file_names es). split.
    + apply elem_of_walk. by exists root, es.
    + apply list_elem_of_fmap. exists name. rewrite elem_of_dir_names. eauto.
Qed.

(** X2. The files that [get_all_files] finds under a folder: a path is in
    the set exactly when it names a file in a directory that is reached from
    the folder through directories that can all be listed; the path is the
    directory names and the file name joined. Nothing is found under a
    directory that cannot be listed, and nothing is raised for it. *)
Theorem get_all_files_reachable folder p :
  p ∈ Gama3.get_all_files fs folder ↔
  ∃ top root es name,
    fs_top fs folder = Some top ∧ reaches top root es ∧ (name, File) ∈ es ∧
    p = relpath_join root name.
Proof. apply elem_of_get_all_files. Qed.

(** X3. [get_all_files_and_folders] of [beta_version_3.py] finds the same
    files as [get_all_files], and as folders every directory entry of a
    directory that is reached through listable directories: also a
    directory that cannot be listed itself. *)
Theorem enumerated_folders_reachable folder p :
  (Beta3.get_all_files_and_folders fs folder).1 = Gama3.get_all_files fs folder ∧
  (p ∈ (Beta3.get_all_files_and_folders fs folder).2 ↔
   ∃ top root es name l,
     fs_top fs folder = Some top ∧ reaches top root es ∧ (name, Dir l) ∈ es ∧
     p = relpath_join root name).
Proof. split; [done|apply elem_of_folders]. Qed.

(** X4. The enumeration is closed under parents: an enumerated file or
    folder is an entry of the top folder, or it is [parent/name] for a
    [parent] that is among the enumerated folders. *)
Theorem enumerated_paths_parent folder p :
  p ∈ (Beta3.get_all_files_and_folders fs folder).1 ∨
  p ∈ (Beta3.get_all_files_and_folders fs folder).2 →
  (∃ es n, fs_top fs folder = Some (Dir (Some es)) ∧ (p, n) ∈ es) ∨
  (∃ parent name,
     parent ∈ (Beta3.get_all_files_and_folders fs folder).2 ∧
     p = parent +:+ "/" +:+ name).
Proof.
  intros Hp.
  assert (∃ top root es name n,
            fs_top fs folder = Some top ∧ reaches top root es ∧
            (name, n) ∈ es ∧ p = relpath_join root name)
    as (top&root&es&name&n&Htop&Hr&Hn&->).
  { destruct Hp as [Hp|Hp].
    - apply elem_of_get_all_files in Hp as (top&root&es&name&?&?&?&?).
      by exists top, root, es, name, File.
    - apply elem_of_folders in Hp as (top&root&es&name&l&?&?&?&?).
      by exists top, root, es, name, (Dir l). }
  destruct root as [|d root _] using rev_ind.
  - left. inv Hr. eauto.
  - right. apply reaches_snoc_inv in Hr as (es'&Hr&Hd).
    exists (relpath_join root d), name. split; [|apply relpath_join_snoc].
    apply elem_of_folders. by exists top, root, es', d, (Some es).
Qed.

End enumeration_facts.

(** The folder [private] cannot be listed: it is among the folders, and
    the walk goes on with the rest. *)
Example get_all_files_and_folders_locked_dir :
  Beta3.get_all_files_and_folders fs_locked_dir "a" =
  (list_to_set ["top.txt"; "docs/readme.md"],
   list_to_set ["docs"; "private"; "docs/old"]).
Proof.
  apply (bool_decide_unpack _). vm_compute. exact I.
Qed.

Lemma enumerated_paths_parent_witness :
  (∃ es n, fs_top fs_locked_dir "a" = Some (Dir (Some es)) ∧
           ("docs/readme.md", n) ∈ es) ∨
  (∃ parent name,
     parent ∈ (Beta3.get_all_files_and_folders fs_locked_dir "a").2 ∧
     "docs/readme.md" = parent +:+ "/" +:+ name).
Proof.
  apply (enumerated_paths_parent fs_locked_dir "a" "docs/readme.md").
  left. apply (bool_decide_unpack _). vm_compute. exact I.
Defined.

(** ** More on the reference pairing *)

Lemma candidates_filter_ne hA As a h :
  candidates hA (filter (λ x, x ≠ a) As) h =
  filter (λ x, x ≠ a) (candidates hA As h).
Proof.
  unfold candidates. rewrite !list_filter_filter.
  apply list_filter_iff. tauto.
Qed.

Lemma candidates_cons hA a As h :
  candidates hA (a :: As) h =
  if decide (hA a = Some h) then a :: candidates hA As h else candidates hA As h.
Proof. unfold candidates. by rewrite filter_cons. Qed.

(** For each digest, as many pairs as the smaller side has files. *)
Lemma rename_pairs_count hA hB As Bs d :
  NoDup As →
  length (filter (λ p, hA p.1 = Some d) (rename_pairs hA hB As Bs)) =
  length (candidates hA As d) `min` length (candidates hB Bs d).
Proof.
  revert As. induction Bs as [|b Bs IH]; intros As HAs; simpl.
  { by rewrite Nat.min_0_r. }
  rewrite candidates_cons.
  destruct (hB b) as [h|] eqn:Hb; [|rewrite decide_False by done; by apply IH].
  destruct (candidates hA As h) as [|a rest] eqn:Hc.
  - rewrite IH by done. destruct (decide (Some h = Some d)) as [[= ->]|]; [|done].
    by rewrite Hc.
  - pose proof (candidates_head _ _ _ _ _ Hc) as [Ha Hah].
    pose proof (IH (filter (λ x, x ≠ a) As) (NoDup_filter _ _ HAs)) as IH'.
    rewrite candidates_filter_ne in IH'. rewrite filter_cons. simpl.
    destruct (decide (Some h = Some d)) as [[= ->]|Hne].
    + rewrite decide_True by done. simpl. rewrite IH', Hc.
      assert (NoDup (a :: rest)) as [Hnin _]%NoDup_cons.
      { rewrite <-Hc. by apply NoDup_filter. }
      rewrite filter_cons, decide_False by (intros Hn; by apply Hn).
      rewrite filter_all by (apply Forall_forall; by intros x Hx ->).
      simpl. lia.
    + rewrite decide_False by congruence. rewrite IH'.
      rewrite filter_all; [done|].
      apply Forall_forall. intros x [Hx _]%list_elem_of_filter ->. congruence.
Qed.

Lemma filter_StronglySorted {A} (R : relation A) (P : A → Prop)
    `{!∀ x, Decision (P x)} l :
  StronglySorted R l → StronglySorted R (filter P l).
Proof.
  induction 1 as [|x l Hl IH Hx]; [constructor|].
  rewrite filter_cons. destruct (decide (P x)); [|done].
  constructor; [done|]. rewrite Forall_forall in *.
  intros y [_ Hy]%list_elem_of_filter. auto.
Qed.

(** ** The order of strings *)

Lemma lex_le_total l1 l2 : lex_le l1 l2 = true ∨ lex_le l2 l1 = true.
Proof.
  revert l2. induction l1 as [|x l1 IH]; intros [|y l2]; simpl; auto.
  destruct (N.ltb_spec x y), (N.ltb_spec y x), (N.eqb_spec x y), (N.eqb_spec y x);
    auto; lia.
Qed.

Lemma lex_le_trans l1 l2 l3 :
  lex_le l1 l2 = true → lex_le l2 l3 = true → lex_le l1 l3 = true.
Proof.
  revert l2 l3. induction l1 as [|x l1 IH]; intros [|y l2] [|z l3]; simpl;
    try done.
  destruct (N.ltb_spec x y), (N.ltb_spec y z), (N.ltb_spec x z),
    (N.eqb_spec x y), (N.eqb_spec y z), (N.eqb_spec x z);
    try done; try lia; eauto.
Qed.

#[global] Instance str_le_trans : Transitive str_le.
Proof. intros a b c. apply lex_le_trans. Qed.

#[global] Instance str_le_total : Total str_le.
Proof. intros a b. apply lex_le_total. Qed.

(** Names that are not UTF-8: the byte [FF] is the character U+DCFF and
    comes before the character U+E000, whose bytes are [EE 80 80]; a
    sequence for a surrogate and a sequence that is cut short are bytes on
    their own. *)
Example code_points_escaped :
  code_points (str_of [255; 46; 116]) = [56575; 46; 116]%N ∧
  code_points (str_of [238; 128; 128; 46]) = [57344; 46]%N ∧
  code_points (str_of [240; 159; 147; 130]) = [128194]%N ∧
  code_points (str_of [237; 160; 128]) = [56557; 56480; 56448]%N ∧
  code_points (str_of [225; 128; 65]) = [56545; 56448; 65]%N ∧
  code_points (str_of [104; 195; 169]) = [104; 233]%N.
Proof. vm_compute. done. Qed.

Example sorted_escaped :
  sorted [str_of [238; 128; 128; 46]; str_of [255; 46]; "b"; "a"] =
  ["a"; "b"; str_of [255; 46]; str_of [238; 128; 128; 46]].
Proof. vm_compute. reflexivity. Qed.

Lemma sorted_StronglySorted l : StronglySorted str_le (sorted l).
Proof. apply StronglySorted_merge_sort; apply _. Qed.

Lemma elements_split (X Y : gset path) :
  elements (X ∖ Y) ++ elements (Y ∖ X) ++ elements (X ∩ Y) ≡ₚ elements (X ∪ Y).
Proof.
  apply NoDup_Permutation.
  - rewrite !NoDup_app. split_and!; try apply NoDup_elements.
    + intros x. rewrite elem_of_app, !elem_of_elements, !elem_of_difference,
        elem_of_intersection. tauto.
    + intros x. rewrite !elem_of_elements, !elem_of_difference,
        elem_of_intersection. tauto.
  - apply NoDup_elements.
  - intros x. rewrite !elem_of_app, !elem_of_elements, !elem_of_difference,
      elem_of_intersection, elem_of_union.
    destruct (decide (x ∈ X)), (decide (x ∈ Y)); tauto.
Qed.

Section gama_3_more_facts.
Context {hlib : HashLib} {pyset : PySet}.
Variable fs : filesystem.

Local Abbreviation get_all_files := (get_all_files fs).
Local Abbreviation side_hash := (side_hash fs).
Local Abbreviation detect_changed_files := (detect_changed_files fs).
Local Abbreviation compare_folders := (compare_folders fs).
Local Abbreviation unreadable := (unreadable fs).
Local Abbreviation same_digest := (same_digest fs).
Local Abbreviation other_digest := (other_digest fs).

(** The files of a set that are in no pair, with the paired ones, are the
    set. *)
Lemma set_list_difference_perm (s : gset path) l :
  NoDup l → (∀ x, x ∈ l → x ∈ s) →
  set_list (s ∖ list_to_set l) ++ l ≡ₚ elements s.
Proof.
  intros Hnd Hsub. apply NoDup_Permutation.
  - rewrite NoDup_app. split_and!; [apply set_list_NoDup| |done].
    intros x. rewrite elem_of_set_list, elem_of_difference, elem_of_list_to_set.
    tauto.
  - apply NoDup_elements.
  - intros x. rewrite elem_of_app, elem_of_set_list, elem_of_difference,
      elem_of_list_to_set, elem_of_elements.
    specialize (Hsub x). destruct (decide (x ∈ l)); tauto.
Qed.

(** X5. Every renamed pair that [detect_changed_files] returns joins an
    extra file of the first folder and an extra file of the second folder
    that both could be hashed and have the same digest, and no file is in
    two pairs. *)
Theorem renamed_pairs_same_digest folder1 folder2 extra_files1 extra_files2 :
  ∃ changed rem1 rem2,
    detect_changed_files folder1 folder2 extra_files1 extra_files2 =
      Some (changed, rem1, rem2) ∧
    (∀ a b, (a, b) ∈ changed →
       a ∈ extra_files1 ∧ b ∈ extra_files2 ∧
       ∃ d, side_hash folder1 a = Some d ∧ side_hash folder2 b = Some d) ∧
    NoDup changed.*1 ∧ NoDup changed.*2.
Proof.
  destruct (detect_changed_files_result fs folder1 folder2 extra_files1 extra_files2)
    as (changed&rem1&rem2&Heq&->&_).
  do 3 eexists. split; [done|]. split_and!.
  - intros a b (Ha&Hb&Hd)%rename_pairs_sound.
    rewrite elem_of_set_list, elem_of_list_to_set in Ha, Hb. done.
  - apply rename_pairs_fst_NoDup.
  - apply rename_pairs_snd_NoDup, set_list_NoDup.
Qed.

(** X6. Rename detection leaves nothing to pair: no file that remains on the
    first side has the digest of a file that remains on the second side. *)
Theorem no_rename_left folder1 folder2 extra_files1 extra_files2 :
  ∃ changed rem1 rem2,
    detect_changed_files folder1 folder2 extra_files1 extra_files2 =
      Some (changed, rem1, rem2) ∧
    ∀ a b d, a ∈ rem1 → b ∈ rem2 →
      side_hash folder1 a = Some d → side_hash folder2 b ≠ Some d.
Proof.
  destruct (detect_changed_files_result fs folder1 folder2 extra_files1 extra_files2)
    as (changed&rem1&rem2&Heq&Hch&Hrem1&Hrem2).
  do 3 eexists. split; [done|].
  intros a b d [Ha Hna]%Hrem1 [Hb Hnb]%Hrem2 Hda Hdb.
  destruct (rename_pairs_maximal (side_hash folder1) (side_hash folder2)
              (set_list (list_to_set extra_files1))
              (set_list (list_to_set extra_files2)) a b d) as [?|?];
    rewrite ?elem_of_set_list, ?elem_of_list_to_set; try done.
  - apply Hna. by rewrite Hch.
  - apply Hnb. by rewrite Hch.
Qed.

(** X7. For each digest the number of renamed pairs is the smaller of the
    numbers of extra files with that digest on the two sides. Which files
    are paired depends on the order in which the sets are iterated; how many
    are paired does not. *)
Theorem renamed_count_per_digest folder1 folder2 extra_files1 extra_files2 :
  ∃ changed rem1 rem2,
    detect_changed_files folder1 folder2 extra_files1 extra_files2 =
      Some (changed, rem1, rem2) ∧
    ∀ d,
      length (filter (λ p, side_hash folder1 p.1 = Some d) changed) =
      length (candidates (side_hash folder1)
                (elements (list_to_set extra_files1 : gset path)) d) `min`
      length (candidates (side_hash folder2)
                (elements (list_to_set extra_files2 : gset path)) d).
Proof.
  destruct (detect_changed_files_result fs folder1 folder2 extra_files1 extra_files2)
    as (changed&rem1&rem2&Heq&->&_).
  do 3 eexists. split; [done|]. intros d.
  rewrite rename_pairs_count by apply set_list_NoDup.
  unfold candidates. by rewrite !set_list_perm.
Qed.

(** X8. Rename detection loses and repeats nothing: on each side the
    remaining files together with the paired files are the distinct files
    that were passed in, each once. *)
Theorem extra_files_conserved folder1 folder2 extra_files1 extra_files2 :
  ∃ changed rem1 rem2,
    detect_changed_files folder1 folder2 extra_files1 extra_files2 =
      Some (changed, rem1, rem2) ∧
    rem1 ++ changed.*1 ≡ₚ elements (list_to_set extra_files1 : gset path) ∧
    rem2 ++ changed.*2 ≡ₚ elements (list_to_set extra_files2 : gset path) ∧
    NoDup rem1 ∧ NoDup rem2.
Proof.
  eexists _, _, _. split; [apply detect_changed_files_pairs|].
  set (pairs := rename_pairs _ _ _ _).
  assert (∀ a b, (a, b) ∈ pairs →
            a ∈ (list_to_set extra_files1 : gset path) ∧
            b ∈ (list_to_set extra_files2 : gset path)) as Hin.
  { intros a b (Ha&Hb&_)%rename_pairs_sound.
    by rewrite !elem_of_set_list in Ha, Hb. }
  split_and!.
  - apply set_list_difference_perm; [apply rename_pairs_fst_NoDup|].
    intros x ([a b]&->&Hx)%list_elem_of_fmap. by apply Hin in Hx as [? _].
  - apply set_list_difference_perm;
      [apply rename_pairs_snd_NoDup, set_list_NoDup|].
    intros x ([a b]&->&Hx)%list_elem_of_fmap. by apply Hin in Hx as [_ ?].
  - apply set_list_NoDup.
  - apply set_list_NoDup.
Qed.

End gama_3_more_facts.

Section gama_3_report_facts.
Context {hlib : HashLib} {pyset : PySet}.
Variable fs : filesystem.

Local Abbreviation get_all_files := (get_all_files fs).
Local Abbreviation side_hash := (side_hash fs).
Local Abbreviation detect_changed_files := (detect_changed_files fs).
Local Abbreviation compare_folders := (compare_folders fs).
Local Abbreviation unreadable := (unreadable fs).
Local Abbreviation same_digest := (same_digest fs).
Local Abbreviation other_digest := (other_digest fs).

Lemma changed_files_one_sided folder1 folder2 a b :
  (a, b) ∈ rename_pairs (side_hash folder1) (side_hash folder2)
             (set_list (get_all_files folder1 ∖ get_all_files folder2))
             (set_list (get_all_files folder2 ∖ get_all_files folder1)) →
  a ∈ get_all_files folder1 ∖ get_all_files folder2 ∧
  b ∈ get_all_files folder2 ∖ get_all_files folder1.
Proof.
  intros (Ha&Hb&_)%rename_pairs_sound. by rewrite !elem_of_set_list in Ha, Hb.
Qed.

Lemma report_partition_perm folder1 folder2 :
  ∃ r, compare_folders folder1 folder2 = Some r ∧
    only_in_folder1 r ++ (changed_files r).*1 ≡ₚ
      elements (get_all_files folder1 ∖ get_all_files folder2) ∧
    only_in_folder2 r ++ (changed_files r).*2 ≡ₚ
      elements (get_all_files folder2 ∖ get_all_files folder1) ∧
    (only_in_folder1 r ++ (changed_files r).*1) ++
    (only_in_folder2 r ++ (changed_files r).*2) ++
    (identical_files r ++ different_files r ++ failed_comparisons r) ≡ₚ
      elements (get_all_files folder1 ∪ get_all_files folder2).
Proof.
  destruct (compare_folders_result fs folder1 folder2)
    as (r&Heq&Hch&Ho1&Ho2&Hd&Hi&Hf&Ht).
  exists r. split; [done|].
  assert (only_in_folder1 r ++ (changed_files r).*1 ≡ₚ
            elements (get_all_files folder1 ∖ get_all_files folder2)) as H1.
  { rewrite Ho1. apply set_list_difference_perm.
    - rewrite Hch. apply rename_pairs_fst_NoDup.
    - rewrite Hch. intros x ([a b]&->&Hx)%list_elem_of_fmap.
      by apply changed_files_one_sided in Hx as [? _]. }
  assert (only_in_folder2 r ++ (changed_files r).*2 ≡ₚ
            elements (get_all_files folder2 ∖ get_all_files folder1)) as H2.
  { rewrite Ho2. apply set_list_difference_perm.
    - rewrite Hch. apply rename_pairs_snd_NoDup, set_list_NoDup.
    - rewrite Hch. intros x ([a b]&->&Hx)%list_elem_of_fmap.
      by apply changed_files_one_sided in Hx as [_ ?]. }
  split_and!; [done|done|].
  rewrite H1, H2, Hi, Hd, Hf, outcome_Permutation, sorted_Permutation.
  apply elements_split.
Qed.

(** X9. The report of [compare_folders] holds every file of the two folders
    exactly once: the files of one folder only are the remaining and the
    renamed ones of that side, and the seven lists together are the union
    of the two sets of files. *)
Theorem report_partition folder1 folder2 :
  ∃ r, compare_folders folder1 folder2 = Some r ∧
    only_in_folder1 r ++ (changed_files r).*1 ≡ₚ
      elements (get_all_files folder1 ∖ get_all_files folder2) ∧
    only_in_folder2 r ++ (changed_files r).*2 ≡ₚ
      elements (get_all_files folder2 ∖ get_all_files folder1) ∧
    (only_in_folder1 r ++ (changed_files r).*1) ++
    (only_in_folder2 r ++ (changed_files r).*2) ++
    (identical_files r ++ different_files r ++ failed_comparisons r) ≡ₚ
      elements (get_all_files folder1 ∪ get_all_files folder2).
Proof. apply report_partition_perm. Qed.

Lemma same_digest_sym folder1 folder2 file :
  same_digest folder1 folder2 file ↔ same_digest folder2 folder1 file.
Proof. unfold Gama3.same_digest. split; intros (d&?&?); by exists d. Qed.

Lemma other_digest_sym folder1 folder2 file :
  other_digest folder1 folder2 file ↔ other_digest folder2 folder1 file.
Proof.
  unfold Gama3.other_digest.
  split; intros (d1&d2&?&?&?); exists d2, d1; by split_and!.
Qed.

Lemma unreadable_sym folder1 folder2 file :
  unreadable folder1 folder2 file ↔ unreadable folder2 folder1 file.
Proof. unfold Gama3.unreadable. tauto. Qed.

(** X10. Comparing the folders the other way round gives the same identical,
    different and failed files and the same number of files checked, and
    for each digest the same number of renamed pairs. A renamed pair whose
    digest no other extra file has is found both ways, turned round. *)
Theorem compare_folders_swap folder1 folder2 :
  ∃ r r', compare_folders folder1 folder2 = Some r ∧
          compare_folders folder2 folder1 = Some r' ∧
    identical_files r' = identical_files r ∧
    different_files r' = different_files r ∧
    failed_comparisons r' = failed_comparisons r ∧
    total_checked r' = total_checked r ∧
    (∀ d, length (filter (λ p, side_hash folder2 p.1 = Some d) (changed_files r')) =
          length (filter (λ p, side_hash folder1 p.1 = Some d) (changed_files r))) ∧
    (∀ a b d,
       a ∈ get_all_files folder1 ∖ get_all_files folder2 →
       b ∈ get_all_files folder2 ∖ get_all_files folder1 →
       side_hash folder1 a = Some d → side_hash folder2 b = Some d →
       (∀ a', a' ∈ get_all_files folder1 ∖ get_all_files folder2 →
              side_hash folder1 a' = Some d → a' = a) →
       (∀ b', b' ∈ get_all_files folder2 ∖ get_all_files folder1 →
              side_hash folder2 b' = Some d → b' = b) →
       (a, b) ∈ changed_files r ∧ (b, a) ∈ changed_files r').
Proof.
  destruct (compare_folders_result fs folder1 folder2)
    as (r&Heq&Hch&Ho1&Ho2&Hd&Hi&Hf&Ht).
  destruct (compare_folders_result fs folder2 folder1)
    as (r'&Heq'&Hch'&Ho1'&Ho2'&Hd'&Hi'&Hf'&Ht').
  exists r, r'. split; [done|]. split; [done|].
  rewrite (comm_L (∩) (get_all_files folder2)) in Hd', Hi', Hf', Ht'.
  split_and!.
  - rewrite Hi, Hi'. apply list_filter_iff. intros x. apply same_digest_sym.
  - rewrite Hd, Hd'. apply list_filter_iff. intros x. apply other_digest_sym.
  - rewrite Hf, Hf'. apply list_filter_iff. intros x. apply unreadable_sym.
  - by rewrite Ht, Ht'.
  - intros d. rewrite Hch, Hch'.
    rewrite !rename_pairs_count by apply set_list_NoDup. apply Nat.min_comm.
  - intros a b d Ha Hb Hda Hdb Hua Hub. rewrite Hch, Hch'. split.
    + apply (rename_pairs_unique_digest _ _ _ _ a b d);
        rewrite ?elem_of_set_list; try done.
      * intros a'. rewrite elem_of_set_list. apply Hua.
      * intros b'. rewrite elem_of_set_list. apply Hub.
    + apply (rename_pairs_unique_digest _ _ _ _ b a d);
        rewrite ?elem_of_set_list; try done.
      * intros b'. rewrite elem_of_set_list. apply Hub.
      * intros a'. rewrite elem_of_set_list. apply Hua.
Qed.

(** X11. A folder compared with itself: nothing is reported as extra,
    renamed or different, every file is checked, and a file is identical
    when it can be hashed and a failed comparison when it cannot. *)
Theorem compare_folder_with_itself folder :
  ∃ r, compare_folders folder folder = Some r ∧
    only_in_folder1 r = [] ∧ only_in_folder2 r = [] ∧
    changed_files r = [] ∧ different_files r = [] ∧
    total_checked r = size (get_all_files folder) ∧
    (∀ file, file ∈ identical_files r ↔
             file ∈ get_all_files folder ∧ is_Some (side_hash folder file)) ∧
    (∀ file, file ∈ failed_comparisons r ↔
             file ∈ get_all_files folder ∧ side_hash folder file = None).
Proof.
  destruct (compare_folders_result fs folder folder)
    as (r&Heq&Hch&Ho1&Ho2&Hd&Hi&Hf&Ht).
  exists r. split; [done|].
  rewrite difference_diag_L, set_list_empty in Hch.
  rewrite rename_pairs_nil_l in Hch. rewrite Hch in Ho1, Ho2. simpl in Ho1, Ho2.
  rewrite difference_diag_L, difference_empty_L, set_list_empty in Ho1, Ho2.
  rewrite (idemp_L (∩)) in Hd, Hi, Hf, Ht.
  split_and!; try done.
  - rewrite Hd. apply elem_of_nil_inv.
    intros x [(d1&d2&?&?&?) _]%list_elem_of_filter. congruence.
  - by rewrite Ht, sorted_Permutation.
  - intros file. rewrite Hi, list_elem_of_filter, elem_of_sorted_elements.
    unfold Gama3.same_digest. split.
    + intros [(d&Hd1&_) ?]. by rewrite Hd1.
    + intros [? [d Hd1]]. eauto.
  - intros file. rewrite Hf, list_elem_of_filter, elem_of_sorted_elements.
    unfold Gama3.unreadable. tauto.
Qed.

(** X12. The identical, the different and the failed files are reported in
    ascending order of their paths (the order in which the common files are
    compared), and the renamed pairs in the order in which the set of the
    second folder's extra files is iterated. *)
Theorem compared_lists_ascending folder1 folder2 :
  ∃ r, compare_folders folder1 folder2 = Some r ∧
    StronglySorted str_le (identical_files r) ∧
    StronglySorted str_le (different_files r) ∧
    StronglySorted str_le (failed_comparisons r) ∧
    (changed_files r).*2 `sublist_of`
      set_list (get_all_files folder2 ∖ get_all_files folder1).
Proof.
  destruct (compare_folders_result fs folder1 folder2)
    as (r&Heq&Hch&Ho1&Ho2&Hd&Hi&Hf&Ht).
  exists r. split; [done|]. rewrite Hi, Hd, Hf, Hch.
  split_and!; try apply filter_StronglySorted, sorted_StronglySorted.
  apply rename_pairs_snd_sublist.
Qed.

End gama_3_report_facts.

(** ** clean_sheet_name *)

(** ** Characters of strings *)

Lemma seq_len_bound c s : seq_len c s - 1 ≤ String.length s.
Proof.
  unfold seq_len. destruct (lead c) as [|[|[|[|[|?]]]]]; simpl; try lia;
    destruct s as [|b1 [|b2 [|b3 s]]]; simpl; try lia;
    by repeat (case_match; simpl; try lia).
Qed.

(** The character that starts a string is the one that starts a beginning
    of it that is long enough. *)
Lemma seq_len_sprefix c p s :
  sprefix p s → seq_len c s - 1 ≤ String.length p → seq_len c p = seq_len c s.
Proof.
  intros Hp. unfold seq_len.
  destruct (lead c) as [|[|[|[|[|?]]]]]; try done;
    destruct p as [|b1 [|b2 [|b3 p]]];
    repeat match goal with
           | H : sprefix (String _ _) _ |- _ => inv H
           | H : sprefix EmptyString ?s |- _ =>
               destruct s as [|? [|? [|? ?]]]; clear H
           end;
    simpl; try done;
    repeat (case_match; simpl; try done; try lia).
Qed.

Lemma py_take_go_sprefix k n s : sprefix (py_take_go k n s) s.
Proof.
  revert k n. induction s as [|c s IH]; intros k n; simpl; [constructor|].
  destruct k; [destruct n|]; by constructor.
Qed.

Lemma py_take_go_length k n s :
  k ≤ String.length s → k ≤ String.length (py_take_go k n s).
Proof.
  revert k n. induction s as [|c s IH]; intros k n; simpl; [done|].
  destruct k; [lia|]. simpl. intros ?. apply le_n_S, IH. lia.
Qed.

Lemma seq_len_py_take_go c n s :
  seq_len c (py_take_go (seq_len c s - 1) n s) = seq_len c s.
Proof.
  apply seq_len_sprefix; [apply py_take_go_sprefix|].
  apply py_take_go_length, seq_len_bound.
Qed.

Lemma py_len_go_take k n s :
  py_len_go k (py_take_go k n s) = n `min` py_len_go k s.
Proof.
  revert k n. induction s as [|c s IH]; intros k n; simpl.
  - by rewrite Nat.min_0_r.
  - destruct k as [|k]; simpl; [|apply IH].
    destruct n as [|n]; simpl; [done|].
    by rewrite seq_len_py_take_go, IH.
Qed.

Lemma py_take_go_all k n s : py_len_go k s ≤ n → py_take_go k n s = s.
Proof.
  revert k n. induction s as [|c s IH]; intros k n; simpl; [done|].
  destruct k as [|k].
  - destruct n as [|n]; [lia|]. intros ?. rewrite IH; [done|lia].
  - intros ?. by rewrite IH.
Qed.

Lemma py_len_take n s : py_len (py_take n s) = n `min` py_len s.
Proof. apply py_len_go_take. Qed.

Lemma py_take_all n s : py_len s ≤ n → py_take n s = s.
Proof. apply py_take_go_all. Qed.

Lemma py_take_idemp n s : py_take n (py_take n s) = py_take n s.
Proof. apply py_take_all. rewrite py_len_take. lia. Qed.

Lemma elem_of_chars_py_take_go k n s c :
  c ∈ chars (py_take_go k n s) → c ∈ chars s.
Proof.
  unfold chars. revert k n. induction s as [|a s IH]; intros k n; simpl; [done|].
  destruct k as [|k]; [destruct n as [|n]|]; simpl;
    try (by intros ?%elem_of_nil);
    intros [->|?]%elem_of_cons; [left|right; eauto|left|right; eauto].
Qed.

Lemma elem_of_chars_py_take n s c : c ∈ chars (py_take n s) → c ∈ chars s.
Proof. apply elem_of_chars_py_take_go. Qed.

(** A change of ASCII characters into ASCII characters leaves the
    characters of a string where they are. *)
Section char_map.
Variable g : Ascii.ascii → Ascii.ascii.
Hypothesis g_ascii : ∀ c, (N_of_ascii c < 128)%N → (N_of_ascii (g c) < 128)%N.
Hypothesis g_other : ∀ c, (128 ≤ N_of_ascii c)%N → g c = c.

Lemma byte_in_map lo hi c :
  (128 ≤ lo)%N → byte_in lo hi (g c) = byte_in lo hi c.
Proof.
  intros Hlo. destruct (decide (N_of_ascii c < 128)%N) as [Hc|Hc].
  - pose proof (g_ascii c Hc). unfold byte_in.
    rewrite (proj2 (N.leb_gt lo (N_of_ascii (g c)))) by lia.
    by rewrite (proj2 (N.leb_gt lo (N_of_ascii c))) by lia.
  - by rewrite g_other by lia.
Qed.

Lemma lead_map c : lead (g c) = lead c.
Proof. unfold lead. by rewrite !byte_in_map by lia. Qed.

Lemma continues_map c : continues (g c) = continues c.
Proof. unfold continues. by rewrite byte_in_map by lia. Qed.

Lemma second_ok_map a b : second_ok (g a) (g b) = second_ok a b.
Proof.
  unfold second_ok. rewrite !byte_in_map by lia.
  destruct (decide (N_of_ascii a < 128)%N) as [Ha|Ha].
  - pose proof (g_ascii a Ha).
    rewrite !(proj2 (N.eqb_neq (N_of_ascii (g a)) _)) by lia.
    by rewrite !(proj2 (N.eqb_neq (N_of_ascii a) _)) by lia.
  - by rewrite g_other by lia.
Qed.

Lemma seq_len_map c s : seq_len (g c) (string_map g s) = seq_len c s.
Proof.
  unfold seq_len. rewrite lead_map.
  destruct (lead c) as [|[|[|[|[|?]]]]]; try done;
    destruct s as [|b1 [|b2 [|b3 s]]]; simpl; try done;
    by rewrite ?second_ok_map, ?continues_map.
Qed.

Lemma py_len_go_map k s : py_len_go k (string_map g s) = py_len_go k s.
Proof.
  revert k. induction s as [|c s IH]; intros k; simpl; [done|].
  destruct k; [|done]. by rewrite seq_len_map, IH.
Qed.

Lemma py_take_go_map k n s :
  py_take_go k n (string_map g s) = string_map g (py_take_go k n s).
Proof.
  revert k n. induction s as [|c s IH]; intros k n; simpl; [done|].
  destruct k; [destruct n|]; simpl; [done| |by rewrite IH].
  by rewrite seq_len_map, IH.
Qed.

End char_map.

Lemma string_map_compose g1 g2 s :
  string_map g2 (string_map g1 s) = string_map (g2 ∘ g1) s.
Proof. induction s as [|c s IH]; simpl; [done|]. by rewrite IH. Qed.

Lemma string_map_ext g1 g2 s :
  (∀ c, c ∈ chars s → g1 c = g2 c) → string_map g1 s = string_map g2 s.
Proof.
  unfold chars. induction s as [|c s IH]; simpl; intros Hg; [done|].
  rewrite Hg by left. rewrite IH; [done|]. intros c' ?. apply Hg. by right.
Qed.

Lemma string_map_id g s : (∀ c, c ∈ chars s → g c = c) → string_map g s = s.
Proof.
  unfold chars. induction s as [|c s IH]; simpl; intros Hg; [done|].
  rewrite Hg by left. rewrite IH; [done|]. intros c' ?. apply Hg. by right.
Qed.

Lemma chars_string_map g s : chars (string_map g s) = g <$> chars s.
Proof. unfold chars. induction s as [|c s IH]; simpl; [done|]. by rewrite IH. Qed.

Lemma replace_dash old s :
  replace old "-" s = string_map (λ c, if decide (c = old) then "-"%char else c) s.
Proof.
  induction s as [|c s IH]; simpl; [done|].
  rewrite IH. by destruct (decide (c = old)).
Qed.

(** The passes of the loop, one for each character of a list that does not
    hold the dash, are one pass. *)
Lemma replace_all_dash l s :
  "-"%char ∉ l →
  foldl (λ name char, replace char "-" name) s l =
  string_map (λ c, if decide (c ∈ l) then "-"%char else c) s.
Proof.
  revert s. induction l as [|a l IH]; intros s Hl; simpl.
  - symmetry. by apply string_map_id.
  - apply not_elem_of_cons in Hl as [Hne Hl].
    rewrite IH, replace_dash, string_map_compose by done.
    apply string_map_ext. intros c _. simpl.
    destruct (decide (c = a)) as [->|Hca].
    + rewrite decide_False by done. rewrite decide_True; [done|left].
    + destruct (decide (c ∈ l)).
      * rewrite decide_True; [done|by right].
      * rewrite decide_False; [done|]. by apply not_elem_of_cons.
Qed.

Lemma invalid_chars_ascii c : c ∈ invalid_chars → (N_of_ascii c < 128)%N.
Proof.
  unfold invalid_chars. rewrite !elem_of_cons, elem_of_nil.
  intros [->|[->|[->|[->|[->|[->|[->|[]]]]]]]]; reflexivity.
Qed.

Lemma dash_ascii c :
  (N_of_ascii c < 128)%N →
  (N_of_ascii (if decide (c ∈ invalid_chars) then "-"%char else c) < 128)%N.
Proof. intros Hc. destruct (decide _); [reflexivity|done]. Qed.

Lemma dash_other c :
  (128 ≤ N_of_ascii c)%N →
  (if decide (c ∈ invalid_chars) then "-"%char else c) = c.
Proof.
  intros Hc. destruct (decide _) as [Hin|]; [|done].
  apply invalid_chars_ascii in Hin. lia.
Qed.

Lemma dash_valid : "-"%char ∉ invalid_chars.
Proof.
  unfold invalid_chars. rewrite !not_elem_of_cons. split_and!; try done.
  apply not_elem_of_nil.
Qed.

Lemma clean_sheet_name_dash name :
  clean_sheet_name name = py_take 31 (dash_invalid name).
Proof.
  unfold clean_sheet_name, dash_invalid. rewrite replace_all_dash; [done|].
  apply dash_valid.
Qed.

Lemma dash_invalid_valid s c : c ∈ chars (dash_invalid s) → c ∉ invalid_chars.
Proof.
  unfold dash_invalid. rewrite chars_string_map.
  intros (c'&->&_)%list_elem_of_fmap.
  destruct (decide (c' ∈ invalid_chars)); [apply dash_valid|done].
Qed.

(** X13. The seven replacements of [clean_sheet_name] amount to one pass
    that puts a dash for each invalid character and keeps every other
    character in its place; cutting to 31 characters can be done before or
    after, and the result has 31 characters or as many as the name has,
    whichever is less. *)
Theorem clean_sheet_name_one_pass name :
  clean_sheet_name name = py_take 31 (dash_invalid name) ∧
  clean_sheet_name name = dash_invalid (py_take 31 name) ∧
  py_len (clean_sheet_name name) = 31 `min` py_len name.
Proof.
  rewrite clean_sheet_name_dash. unfold dash_invalid, py_take, py_len.
  split_and!.
  - done.
  - apply py_take_go_map; [apply dash_ascii|apply dash_other].
  - rewrite py_len_go_take, py_len_go_map;
      [done|apply dash_ascii|apply dash_other].
Qed.

(** X14. The name that [clean_sheet_name] returns has at most 31 characters
    and none of the invalid characters, and cleaning it again changes
    nothing. *)
Theorem clean_sheet_name_valid name :
  py_len (clean_sheet_name name) ≤ 31 ∧
  (∀ c, c ∈ chars (clean_sheet_name name) → c ∉ invalid_chars) ∧
  clean_sheet_name (clean_sheet_name name) = clean_sheet_name name.
Proof.
  split_and!.
  - rewrite clean_sheet_name_dash, py_len_take. lia.
  - intros c. rewrite clean_sheet_name_dash.
    intros Hc%elem_of_chars_py_take. by apply dash_invalid_valid in Hc.
  - rewrite !clean_sheet_name_dash.
    unfold dash_invalid at 1. rewrite string_map_id.
    + apply py_take_idemp.
    + intros c Hc%elem_of_chars_py_take%dash_invalid_valid. cbv beta.
      by rewrite decide_False.
Qed.

(** X15. A name of at most 31 characters without invalid characters is
    returned as it is. *)
Theorem clean_sheet_name_keeps_valid name :
  py_len name ≤ 31 → (∀ c, c ∈ chars name → c ∉ invalid_chars) →
  clean_sheet_name name = name.
Proof.
  intros Hlen Hok. rewrite clean_sheet_name_dash.
  unfold dash_invalid. rewrite string_map_id.
  - by apply py_take_all.
  - intros c Hc%Hok. cbv beta. by rewrite decide_False.
Qed.

Example clean_sheet_name_report :
  clean_sheet_name "2024/05: report [final]? a name of more than 31 characters" =
  "2024-05- report -final-- a name".
Proof. vm_compute. reflexivity. Qed.

(** Characters of several bytes count once; the name is cut after the
    31st character, not the 31st byte. *)
Example clean_sheet_name_accents :
  clean_sheet_name "été/hiver: résumé des écarts à vérifier bientôt" =
  "été-hiver- résumé des écarts à " ∧
  py_len "été-hiver- résumé des écarts à " = 31 ∧
  String.length "été-hiver- résumé des écarts à " = 37.
Proof. vm_compute. done. Qed.

(** ** beta_version_3.py against gama_3.py *)

Section beta_version_3_more_facts.
Context {hlib : HashLib}.
Variable fs : filesystem.

Local Abbreviation side_hash := (side_hash fs).
Local Abbreviation unreadable := (unreadable fs).
Local Abbreviation same_digest := (same_digest fs).
Local Abbreviation other_digest := (other_digest fs).

Lemma beta_compare_common_cons folder1 folder2 file files different identical :
  Beta3.compare_common fs folder1 folder2 (file :: files) different identical =
  hash1 ← side_hash folder1 file;
  hash2 ← side_hash folder2 file;
  if decide (hash1 ≠ hash2)
  then Beta3.compare_common fs folder1 folder2 files
         (different ++ [file]) identical
  else Beta3.compare_common fs folder1 folder2 files
         different (identical ++ [file]).
Proof. done. Qed.

(** The loop of [beta_version_3.py] over the common files: it goes through
    when no file is unreadable, and then sorts the files as the loop of
    [gama_3.py] does. *)
Lemma beta_compare_common_outcome folder1 folder2 files different identical :
  Beta3.compare_common fs folder1 folder2 files different identical =
  if decide (Forall (λ file, ¬ unreadable folder1 folder2 file) files)
  then Some (different ++ filter (other_digest folder1 folder2) files,
             identical ++ filter (same_digest folder1 folder2) files)
  else None.
Proof.
  revert different identical.
  induction files as [|file files IH]; intros different identical.
  { rewrite decide_True by constructor. simpl. by rewrite !filter_nil, !app_nil_r. }
  rewrite beta_compare_common_cons, !filter_cons.
  destruct (outcome_cases fs folder1 folder2 file)
    as [(Hu&Hs&Ho)|[(Hu&Hs&Ho)|(Hu&Hs&Ho)]].
  - rewrite (decide_False (P:=Forall _ (file :: files)))
      by (by intros [? _]%Forall_cons).
    destruct Hu as [->| ->]; [done|]. by destruct (side_hash folder1 file).
  - rewrite (decide_True (P:=same_digest folder1 folder2 file)) by done.
    rewrite (decide_False (P:=other_digest folder1 folder2 file)) by done.
    destruct Hs as (d&-> & ->). simpl.
    rewrite decide_False by (intros Hn; by apply Hn). rewrite IH.
    destruct (decide (Forall _ files)) as [Hall|Hall].
    + rewrite decide_True by (by constructor).
      by rewrite <-(assoc_L (++)).
    + rewrite decide_False; [done|]. by intros [_ ?]%Forall_cons.
  - rewrite (decide_False (P:=same_digest folder1 folder2 file)) by done.
    rewrite (decide_True (P:=other_digest folder1 folder2 file)) by done.
    destruct Ho as (d1&d2&->&->&Hne). simpl.
    rewrite decide_True by done. rewrite IH.
    destruct (decide (Forall _ files)) as [Hall|Hall].
    + rewrite decide_True by (by constructor).
      by rewrite <-(assoc_L (++)).
    + rewrite decide_False; [done|]. by intros [_ ?]%Forall_cons.
Qed.

(** What [compare_folders] of [beta_version_3.py] returns. *)
Lemma beta_compare_folders_result folder1 folder2 :
  let files1 := Gama3.get_all_files fs folder1 in
  let files2 := Gama3.get_all_files fs folder2 in
  let folders1 := (Beta3.get_all_files_and_folders fs folder1).2 in
  let folders2 := (Beta3.get_all_files_and_folders fs folder2).2 in
  let common_files := sorted (elements (files1 ∩ files2)) in
  Beta3.compare_folders fs folder1 folder2 =
  if decide (Forall (λ file, ¬ unreadable folder1 folder2 file) common_files)
  then Some (Beta3.Report
               (sorted (elements (files1 ∖ files2)))
               (sorted (elements (files2 ∖ files1)))
               (sorted (elements (folders1 ∖ folders2)))
               (sorted (elements (folders2 ∖ folders1)))
               (filter (other_digest folder1 folder2) common_files)
               (filter (same_digest folder1 folder2) common_files))
  else None.
Proof.
  intros files1 files2 folders1 folders2 common_files.
  unfold Beta3.compare_folders, Beta3.get_all_files_and_folders.
  unfold file_lists, Beta3.folder_lists.
  rewrite beta_compare_common_outcome. fold common_files. simpl.
  by destruct (decide _).
Qed.

End beta_version_3_more_facts.

(** X16. [compare_folders] of [beta_version_3.py] ends without a report
    exactly when some file of both folders cannot be hashed on one of the
    sides: its [get_file_hash] has no [try], so the exception ends the
    run. *)
Theorem beta_compare_folders_aborts {hlib : HashLib} (fs : filesystem)
    folder1 folder2 :
  Beta3.compare_folders fs folder1 folder2 = None ↔
  ∃ file, file ∈ (Beta3.get_all_files_and_folders fs folder1).1 ∧
          file ∈ (Beta3.get_all_files_and_folders fs folder2).1 ∧
          (Beta3.get_file_hash fs (os_path_join folder1 file) = None ∨
           Beta3.get_file_hash fs (os_path_join folder2 file) = None).
Proof.
  rewrite beta_compare_folders_result.
  destruct (decide (Forall _ _)) as [Hall|Hsome].
  - split; [done|]. intros (file&H1&H2&Hu). exfalso.
    rewrite Forall_forall in Hall. apply (Hall file); [|done].
    by rewrite elem_of_sorted_elements, elem_of_intersection.
  - split; [intros _|done].
    apply not_Forall_Exists in Hsome; [|apply _].
    apply Exists_exists in Hsome as (file&Hin&Hu).
    rewrite elem_of_sorted_elements, elem_of_intersection in Hin.
    exists file. destruct Hin. split_and!; [done|done|].
    by apply dec_stable in Hu.
Qed.

(** X17. When [beta_version_3.py] reaches its report, [gama_3.py] reports
    the same identical and the same different files and no failed
    comparison; the files that the older script lists as being in one
    folder only are those that the newer one lists there or has in a
    renamed pair. *)
Theorem beta_agrees_with_gama {hlib : HashLib} {pyset : PySet}
    (fs : filesystem) folder1 folder2 rb :
  Beta3.compare_folders fs folder1 folder2 = Some rb →
  ∃ rg, Gama3.compare_folders fs folder1 folder2 = Some rg ∧
    Beta3.identical_files rb = identical_files rg ∧
    Beta3.different_files rb = different_files rg ∧
    failed_comparisons rg = [] ∧
    Beta3.only_files_in_folder1 rb ≡ₚ only_in_folder1 rg ++ (changed_files rg).*1 ∧
    Beta3.only_files_in_folder2 rb ≡ₚ only_in_folder2 rg ++ (changed_files rg).*2.
Proof.
  rewrite beta_compare_folders_result.
  destruct (decide (Forall _ _)) as [Hall|]; [|done]. intros [= <-].
  destruct (report_partition_perm fs folder1 folder2)
    as (rg&Heq&H1&H2&_).
  destruct (compare_folders_result fs folder1 folder2)
    as (rg'&Heq'&Hch&Ho1&Ho2&Hd&Hi&Hf&Ht).
  assert (rg' = rg) as -> by congruence.
  exists rg. simpl. split_and!; try done.
  - rewrite Hf. apply elem_of_nil_inv. intros x [Hu Hx]%list_elem_of_filter.
    rewrite Forall_forall in Hall. by apply (Hall x).
  - by rewrite H1, sorted_Permutation.
  - by rewrite H2, sorted_Permutation.
Qed.

(** X18. All six lists of the report of [beta_version_3.py] are in ascending
    order of the paths, as Python compares strings, and none has a path
    twice: also the files and folders of one folder only, which [gama_3.py]
    hands on in the order of a set. *)
Theorem beta_lists_ascending {hlib : HashLib} (fs : filesystem)
    folder1 folder2 rb :
  Beta3.compare_folders fs folder1 folder2 = Some rb →
  Forall (λ l, StronglySorted str_le l ∧ NoDup l)
    [Beta3.only_files_in_folder1 rb; Beta3.only_files_in_folder2 rb;
     Beta3.only_folders_in_folder1 rb; Beta3.only_folders_in_folder2 rb;
     Beta3.different_files rb; Beta3.identical_files rb].
Proof.
  rewrite beta_compare_folders_result.
  destruct (decide (Forall _ _)) as [Hall|]; [|done]. intros [= <-]. simpl.
  rewrite !Forall_cons. split_and!; try done;
    try apply filter_StronglySorted; try apply sorted_StronglySorted;
    try apply NoDup_filter; apply sorted_elements_NoDup.
Qed.

(** ** The rows of the workbooks *)

Lemma app_shuffle {A} (a b c d e f g : list A) :
  (a ++ b ++ c ++ d ++ e) ++ f ++ g ≡ₚ (a ++ f) ++ (b ++ g) ++ (d ++ c ++ e).
Proof.
  rewrite <-!(assoc_L (++)). f_equiv.
  rewrite (Permutation_app_swap_app f b). f_equiv.
  transitivity ((c ++ d ++ e) ++ f ++ g); [by rewrite <-!(assoc_L (++))|].
  rewrite (comm (++) (c ++ d ++ e)), <-!(assoc_L (++)). do 2 f_equiv.
  apply Permutation_app_swap_app.
Qed.

Lemma all_files_paths folder1 folder2 only1 only2 different identical failed :
  (Gama3Excel.all_files folder1 folder2 only1 only2 different identical failed).*1.*1 =
  only1 ++ only2 ++ different ++ identical ++ failed.
Proof.
  unfold Gama3Excel.all_files. rewrite !fmap_app, <-!list_fmap_compose.
  by rewrite !list_fmap_id.
Qed.

Lemma elem_of_all_files folder1 folder2 only1 only2 different identical failed
    f status location :
  (f, status, location) ∈
    Gama3Excel.all_files folder1 folder2 only1 only2 different identical failed ↔
  (status = "Extra" ∧ location = folder1 ∧ f ∈ only1) ∨
  (status = "Extra" ∧ location = folder2 ∧ f ∈ only2) ∨
  (status = "Different" ∧ location = "Both folders" ∧ f ∈ different) ∨
  (status = "Identical" ∧ location = "Both folders" ∧ f ∈ identical) ∨
  (status = "Failed" ∧ location = "Comparison failed" ∧ f ∈ failed).
Proof.
  unfold Gama3Excel.all_files. rewrite !elem_of_app, !list_elem_of_fmap.
  split.
  - intros [(x&[= -> -> ->]&?)|[(x&[= -> -> ->]&?)|[(x&[= -> -> ->]&?)|
            [(x&[= -> -> ->]&?)|(x&[= -> -> ->]&?)]]]]; tauto.
  - intros [(->&->&?)|[(->&->&?)|[(->&->&?)|[(->&->&?)|(->&->&?)]]]]; eauto 10.
Qed.

Section gama_3_excel_facts.
Context {hlib : HashLib} {pyset : PySet}.
Variable fs : filesystem.

(** X19. The rows that [gama_3.py] makes for its main sheet: one row for
    each file of the five lists of the report, in the order of the lists,
    with the status and the location of its list. A file of a renamed pair
    has no row, and the rows together with the files of the renamed pairs
    are the files of the two folders, each once. *)
Theorem main_sheet_rows folder1 folder2 :
  ∃ r, Gama3.compare_folders fs folder1 folder2 = Some r ∧
    let all_files := Gama3Excel.rows_of folder1 folder2 r in
    all_files.*1.*1 =
      only_in_folder1 r ++ only_in_folder2 r ++ different_files r ++
      identical_files r ++ failed_comparisons r ∧
    (∀ f status location,
       (f, status, location) ∈ all_files ↔
       (status = "Extra" ∧ location = folder1 ∧ f ∈ only_in_folder1 r) ∨
       (status = "Extra" ∧ location = folder2 ∧ f ∈ only_in_folder2 r) ∨
       (status = "Different" ∧ location = "Both folders" ∧ f ∈ different_files r) ∨
       (status = "Identical" ∧ location = "Both folders" ∧ f ∈ identical_files r) ∨
       (status = "Failed" ∧ location = "Comparison failed" ∧
          f ∈ failed_comparisons r)) ∧
    all_files.*1.*1 ++ (changed_files r).*1 ++ (changed_files r).*2 ≡ₚ
      elements (Gama3.get_all_files fs folder1 ∪ Gama3.get_all_files fs folder2) ∧
    (∀ a b, (a, b) ∈ changed_files r →
       (a ∉ all_files.*1.*1) ∧ (b ∉ all_files.*1.*1)).
Proof.
  destruct (report_partition_perm fs folder1 folder2) as (r&Heq&_&_&Hperm).
  exists r. split; [done|]. cbv zeta. unfold Gama3Excel.rows_of.
  rewrite all_files_paths.
  assert ((only_in_folder1 r ++ only_in_folder2 r ++ different_files r ++
           identical_files r ++ failed_comparisons r) ++
          (changed_files r).*1 ++ (changed_files r).*2 ≡ₚ
          elements (Gama3.get_all_files fs folder1 ∪ Gama3.get_all_files fs folder2))
    as Hall by (by rewrite app_shuffle).
  split_and!; [done|intros; apply elem_of_all_files|done|].
  intros a b Hin.
  assert (NoDup ((only_in_folder1 r ++ only_in_folder2 r ++ different_files r ++
                  identical_files r ++ failed_comparisons r) ++
                 (changed_files r).*1 ++ (changed_files r).*2)) as Hnd.
  { rewrite Hall. apply NoDup_elements. }
  apply NoDup_app in Hnd as (_&Hdisj&_).
  split; intros Hx; apply (Hdisj _ Hx); rewrite elem_of_app, !list_elem_of_fmap.
  - left. by exists (a, b).
  - right. by exists (a, b).
Qed.

(** X20. The counts that [gama_3.py] makes for its summary sheet add up: the
    files checked are the identical, the different and the failed ones; the
    main sheet gets a row for each counted file but the renamed ones; and
    the files of each folder are the files checked, the files only there and
    the renamed ones. *)
Theorem summary_rows_consistent folder1 folder2 :
  ∃ r total identical different changed only1 only2 failed,
    Gama3.compare_folders fs folder1 folder2 = Some r ∧
    Gama3Excel.summary_of folder1 folder2 r =
      [("Total files checked", total);
       ("Identical files", identical);
       ("Different files", different);
       ("Changed file names", changed);
       ("Only in " +:+ folder1, only1);
       ("Only in " +:+ folder2, only2);
       ("Failed comparisons", failed)] ∧
    total = identical + different + failed ∧
    length (Gama3Excel.rows_of folder1 folder2 r) =
      only1 + only2 + different + identical + failed ∧
    size (Gama3.get_all_files fs folder1) = total + only1 + changed ∧
    size (Gama3.get_all_files fs folder2) = total + only2 + changed.
Proof.
  destruct (report_partition_perm fs folder1 folder2) as (r&Heq&H1&H2&_).
  destruct (compare_folders_result fs folder1 folder2)
    as (r'&Heq'&Hch&Ho1&Ho2&Hd&Hi&Hf&Ht).
  assert (r' = r) as -> by congruence.
  exists r. do 7 eexists. split_and!; [done|done|..].
  - rewrite Ht, Hi, Hd, Hf. by rewrite outcome_lengths.
  - unfold Gama3Excel.rows_of, Gama3Excel.all_files.
    rewrite !length_app, !length_fmap. lia.
  - assert (get_all_files fs folder1 =
              (get_all_files fs folder1 ∖ get_all_files fs folder2) ∪
              (get_all_files fs folder1 ∩ get_all_files fs folder2)) as Hsplit.
    { apply set_eq. intros x.
      rewrite elem_of_union, elem_of_difference, elem_of_intersection.
      destruct (decide (x ∈ get_all_files fs folder2)); tauto. }
    rewrite Hsplit at 1. rewrite size_union.
    + unfold size, set_size. simpl. rewrite <-H1, Ht, length_app, length_fmap.
      rewrite sorted_Permutation. lia.
    + intros x. rewrite elem_of_difference, elem_of_intersection. tauto.
  - assert (get_all_files fs folder2 =
              (get_all_files fs folder2 ∖ get_all_files fs folder1) ∪
              (get_all_files fs folder1 ∩ get_all_files fs folder2)) as Hsplit.
    { apply set_eq. intros x.
      rewrite elem_of_union, elem_of_difference, elem_of_intersection.
      destruct (decide (x ∈ get_all_files fs folder1)); tauto. }
    rewrite Hsplit at 1. rewrite size_union.
    + unfold size, set_size. simpl. rewrite <-H2, Ht, length_app, length_fmap.
      rewrite sorted_Permutation. lia.
    + intros x. rewrite elem_of_difference, elem_of_intersection. tauto.
Qed.

End gama_3_excel_facts.

(** The rows for the renamed file, the edited file and the file that did
    not move. *)
Example gama_3_rows :
  (r ← Gama3.compare_folders (pyset:=ascending) fs_renamed "a" "b";
   Some (Gama3Excel.rows_of "a" "b" r, Gama3Excel.summary_of "a" "b" r)) =
  Some ([("edit.txt", "Different", "Both folders");
         ("same.txt", "Identical", "Both folders")],
        [("Total files checked", 2); ("Identical files", 1);
         ("Different files", 1); ("Changed file names", 1);
         ("Only in a", 0); ("Only in b", 0); ("Failed comparisons", 0)]).
Proof. vm_compute. reflexivity. Qed.

Lemma elem_of_all_entries folder1 folder2 folders1 folders2 files1 files2
    different identical type f status location :
  (type, f, status, location) ∈
    Beta3Excel.all_entries folder1 folder2 folders1 folders2 files1 files2
      different identical ↔
  (type = "📂 Folder" ∧ status = "Extra" ∧ location = folder1 ∧ f ∈ folders1) ∨
  (type = "📂 Folder" ∧ status = "Extra" ∧ location = folder2 ∧ f ∈ folders2) ∨
  (type = "📁 File" ∧ status = "Extra" ∧ location = folder1 ∧ f ∈ files1) ∨
  (type = "📁 File" ∧ status = "Extra" ∧ location = folder2 ∧ f ∈ files2) ∨
  (type = "📁 File" ∧ status = "Different" ∧ location = "Both folders" ∧
     f ∈ different) ∨
  (type = "📁 File" ∧ status = "Identical" ∧ location = "Both folders" ∧
     f ∈ identical).
Proof.
  unfold Beta3Excel.all_entries. rewrite !elem_of_app, !list_elem_of_fmap.
  split.
  - intros [(x&[= -> -> -> ->]&?)|[(x&[= -> -> -> ->]&?)|[(x&[= -> -> -> ->]&?)|
            [(x&[= -> -> -> ->]&?)|[(x&[= -> -> -> ->]&?)|(x&[= -> -> -> ->]&?)]]]]];
      tauto.
  - intros [(->&->&->&?)|[(->&->&->&?)|[(->&->&->&?)|[(->&->&->&?)|
            [(->&->&->&?)|(->&->&->&?)]]]]]; eauto 10.
Qed.

(** X22. The rows that [beta_version_3.py] makes for its sheet when the
    comparison goes through: a folder has a row when it is in one folder
    only (folders of both folders have none), a file has a row with the
    status of its list, and there are as many rows as one-sided folders and
    files of the two folders. *)
Theorem beta_sheet_rows {hlib : HashLib} (fs : filesystem) folder1 folder2 rb :
  Beta3.compare_folders fs folder1 folder2 = Some rb →
  let files1 := (Beta3.get_all_files_and_folders fs folder1).1 in
  let files2 := (Beta3.get_all_files_and_folders fs folder2).1 in
  let folders1 := (Beta3.get_all_files_and_folders fs folder1).2 in
  let folders2 := (Beta3.get_all_files_and_folders fs folder2).2 in
  let all_entries := Beta3Excel.entries_of folder1 folder2 rb in
  (∀ p status location,
     ("📂 Folder", p, status, location) ∈ all_entries ↔
     status = "Extra" ∧
     ((location = folder1 ∧ p ∈ folders1 ∧ p ∉ folders2) ∨
      (location = folder2 ∧ p ∈ folders2 ∧ p ∉ folders1))) ∧
  (∀ p status location,
     ("📁 File", p, status, location) ∈ all_entries ↔
     (status = "Extra" ∧ location = folder1 ∧ p ∈ files1 ∧ p ∉ files2) ∨
     (status = "Extra" ∧ location = folder2 ∧ p ∈ files2 ∧ p ∉ files1) ∨
     (status = "Different" ∧ location = "Both folders" ∧
        p ∈ Beta3.different_files rb) ∨
     (status = "Identical" ∧ location = "Both folders" ∧
        p ∈ Beta3.identical_files rb)) ∧
  length all_entries =
    size (folders1 ∖ folders2) + size (folders2 ∖ folders1) +
    size (files1 ∪ files2).
Proof.
  intros Hrb. cbv zeta. unfold Beta3Excel.entries_of.
  rewrite beta_compare_folders_result in Hrb. cbv zeta in Hrb.
  change (Beta3.get_all_files_and_folders fs folder1).1
    with (get_all_files fs folder1).
  change (Beta3.get_all_files_and_folders fs folder2).1
    with (get_all_files fs folder2).
  revert Hrb.
  generalize (get_all_files fs folder1) (get_all_files fs folder2)
    (Beta3.get_all_files_and_folders fs folder1).2
    (Beta3.get_all_files_and_folders fs folder2).2.
  intros files1 files2 folders1 folders2 Hrb.
  destruct (decide (Forall _ _)) as [Hall|]; [|done].
  injection Hrb as <-. simpl.
  split_and!.
  - intros p status location. rewrite elem_of_all_entries. split.
    + intros [(_&->&->&Hp)|[(_&->&->&Hp)|[(?&_)|[(?&_)|[(?&_)|(?&_)]]]]];
        try done;
        apply elem_of_sorted_elements, elem_of_difference in Hp as [??];
        (split; [done|]).
      * by left.
      * by right.
    + intros [-> Hp].
      rewrite !elem_of_sorted_elements, !elem_of_difference.
      destruct Hp as [(->&?&?)|(->&?&?)]; [left|right; left]; done.
  - intros p status location. rewrite elem_of_all_entries. split.
    + intros [(?&_)|[(?&_)|[(_&->&->&Hp)|[(_&->&->&Hp)|[(_&->&->&Hp)|(_&->&->&Hp)]]]]];
        try done.
      * apply elem_of_sorted_elements, elem_of_difference in Hp as [??].
        by left.
      * apply elem_of_sorted_elements, elem_of_difference in Hp as [??].
        right. by left.
      * right. right. by left.
      * right. right. by right.
    + intros Hp.
      rewrite !elem_of_sorted_elements, !elem_of_difference.
      destruct Hp as [(->&->&?&?)|[(->&->&?&?)|[(->&->&?)|(->&->&?)]]];
        [do 2 right; left|do 3 right; left|do 4 right; left|do 5 right]; done.
  - unfold Beta3Excel.all_entries.
    rewrite !length_app, !length_fmap.
    rewrite !(Permutation_length (sorted_Permutation (elements _))).
    assert (length (filter (other_digest fs folder1 folder2)
                      (sorted (elements (files1 ∩ files2)))) +
            length (filter (same_digest fs folder1 folder2)
                      (sorted (elements (files1 ∩ files2)))) =
            size (files1 ∩ files2)) as Hcommon.
    { pose proof (outcome_lengths fs folder1 folder2
                    (sorted (elements (files1 ∩ files2)))) as Hl.
      assert (filter (unreadable fs folder1 folder2)
                (sorted (elements (files1 ∩ files2))) = []) as Hnone.
      { apply elem_of_nil_inv. intros x [Hu Hx]%list_elem_of_filter.
        rewrite Forall_forall in Hall. by apply (Hall x). }
      rewrite Hnone in Hl. simpl in Hl.
      assert (length (sorted (elements (files1 ∩ files2))) =
              size (files1 ∩ files2)) as Hs by (by rewrite sorted_Permutation).
      lia. }
    pose proof (Permutation_length (elements_split files1 files2)) as Hu.
    rewrite !length_app in Hu.
    unfold size, set_size in *. simpl in *. lia.
Qed.

(** * Instances of the further theorems *)

(** The title that both scripts give to their sheet. *)
Lemma clean_sheet_name_keeps_valid_witness :
  clean_sheet_name "Folder Comparison" = "Folder Comparison".
Proof.
  apply (clean_sheet_name_keeps_valid "Folder Comparison").
  - vm_compute. lia.
  - apply Forall_forall. apply (bool_decide_unpack _). vm_compute. exact I.
Defined.

Lemma beta_agrees_with_gama_witness :
  ∃ rg, Gama3.compare_folders (pyset:=ascending) fs_renamed "a" "b" = Some rg ∧
    ["same.txt"] = Gama3.identical_files rg ∧
    ["edit.txt"] = Gama3.different_files rg ∧
    Gama3.failed_comparisons rg = [] ∧
    ["foo.txt"] ≡ₚ Gama3.only_in_folder1 rg ++ (Gama3.changed_files rg).*1 ∧
    ["bar.txt"] ≡ₚ Gama3.only_in_folder2 rg ++ (Gama3.changed_files rg).*2.
Proof.
  apply (beta_agrees_with_gama (pyset:=ascending) fs_renamed "a" "b"
           (Beta3.Report ["foo.txt"] ["bar.txt"] [] [] ["edit.txt"] ["same.txt"])).
  vm_compute. reflexivity.
Defined.

Lemma beta_lists_ascending_witness :
  Forall (λ l, StronglySorted str_le l ∧ NoDup l)
    [["broken.bin"; "locked.bin"]; ["sub/new.txt"]; []; ["sub"]; []; ["ok.txt"]].
Proof.
  apply (beta_lists_ascending fs_unreadable "a" "b"
           (Beta3.Report ["broken.bin"; "locked.bin"] ["sub/new.txt"]
                         [] ["sub"] [] ["ok.txt"])).
  vm_compute. reflexivity.
Defined.

Lemma beta_sheet_rows_witness :
  length (Beta3Excel.entries_of "a" "b"
            (Beta3.Report ["broken.bin"; "locked.bin"] ["sub/new.txt"]
                          [] ["sub"] [] ["ok.txt"])) = 5.
Proof.
  pose proof (beta_sheet_rows fs_unreadable "a" "b"
                (Beta3.Report ["broken.bin"; "locked.bin"] ["sub/new.txt"]
                              [] ["sub"] [] ["ok.txt"])) as Hw.
  destruct Hw as (_&_&Hlen).
  - vm_compute. reflexivity.
  - rewrite Hlen. vm_compute. reflexivity.
Defined.
